(** * MACRO: multi-head attention block and model assembly

    A shallow embedding of [layers/MultiHeadAttention.py] and
    [model/final_model.py].

    Conventions.
    - A torch tensor is its extents together with its element access
      function.  Entries are exact real numbers: rounding, overflow, the
      infinities and NaN of float32 are not modelled.  What is proved
      below is therefore about extents, layout, order of calls, error
      paths, state, and which formula is computed; no bound on the
      float32 values themselves is derived from this model.
    - A Python exception is a value of [pyerror]; a call that can raise
      returns a [result].
    - [MultiHeadAttention.forward] mutates [self._scores]; it is embedded in
      a state-and-error monad whose state (the module) survives an exception.
    - [FinalModel] only orchestrates submodules whose classes live in torch
      or in files that are not part of the two embedded ones; they are taken
      through the interface [Collaborators]. *)

From Stdlib Require Import List Arith Bool Lia ZArith String Ascii QArith.
From Stdlib Require Import Reals Lra.
Import ListNotations.

(** ** Python exceptions and fallible results *)

Inductive pyerror : Type :=
| AssertionError (msg : string)
| ValueError (msg : string)
| AttributeError (msg : string)
| UnboundLocalError (name : string)
| ZeroDivisionError
| TypeError (msg : string)
| IndexError (msg : string)
| RuntimeError (msg : string).

Inductive result (A : Type) : Type :=
| Ok (a : A)
| Err (e : pyerror).

Arguments Ok {A} a.
Arguments Err {A} e.

Definition rbind {A B : Type} (r : result A) (f : A -> result B) : result B :=
  match r with
  | Ok a => f a
  | Err e => Err e
  end.

Declare Scope result_scope.
Delimit Scope result_scope with result.
Notation "x <- r ;; k" := (rbind r (fun x => k))
  (at level 61, r at next level, right associativity) : result_scope.
Notation "r ;;; k" := (rbind r (fun _ => k))
  (at level 61, right associativity) : result_scope.

(** ** Tensors *)

Module Torch.

Open Scope R_scope.
Open Scope nat_scope.
Open Scope result_scope.

Record tensor : Type := mkT { shape : list nat; get : list nat -> R }.

Definition rank (t : tensor) : nat := List.length (shape t).

(** [idx] addresses an element of a tensor of extents [sh]. *)
Definition in_bounds (idx sh : list nat) : Prop := Forall2 lt idx sh.

(** Two tensors are the same when they have the same extents and the same
    entry at every position. *)
Definition tensor_eq (t u : tensor) : Prop :=
  shape t = shape u /\
  forall idx, in_bounds idx (shape t) -> get t idx = get u idx.

Infix "=t=" := tensor_eq (at level 70, no associativity).

(** [upd n f l] applies [f] to the [n]-th element of [l]. *)
Fixpoint upd (n : nat) (f : nat -> nat) (l : list nat) : list nat :=
  match l, n with
  | [], _ => []
  | x :: r, O => f x :: r
  | x :: r, S n' => x :: upd n' f r
  end.

(** torch's dimension wrapping: [dim] in [-rank, rank-1]. *)
Definition axis_of (rk : nat) (dim : Z) : option nat :=
  if (0 <=? dim)%Z && (dim <? Z.of_nat rk)%Z then Some (Z.to_nat dim)
  else if (dim <? 0)%Z && (- Z.of_nat rk <=? dim)%Z
       then Some (Z.to_nat (Z.of_nat rk + dim))
       else None.

Definition size_at (ax : nat) (t : tensor) : nat := nth ax (shape t) 0.

(** [Tensor.narrow(dim, start, length)] *)
Definition narrow (t : tensor) (ax start len : nat) : tensor :=
  mkT (upd ax (fun _ => len) (shape t))
      (fun idx => get t (upd ax (fun i => start + i) idx)).

(** [Tensor.chunk(chunks, dim)]: pieces of [ceil(size / chunks)] entries
    along [dim], the last one possibly shorter; a dimension of extent 0
    gives [chunks] empty pieces. *)
Definition chunk (t : tensor) (chunks : nat) (dim : Z) : result (list tensor) :=
  if chunks =? 0 then
    Err (RuntimeError "chunk expects `chunks` to be greater than 0")
  else
    match axis_of (rank t) dim with
    | None => Err (IndexError "Dimension out of range")
    | Some ax =>
        let size := size_at ax t in
        let split_size := (size + chunks - 1) / chunks in
        if split_size =? 0 then
          Ok (map (fun _ => narrow t ax 0 0) (seq 0 chunks))
        else
          let num := Nat.max ((size + split_size - 1) / split_size) 1 in
          Ok (map (fun i => narrow t ax (i * split_size)
                              (if i =? num - 1 then size - i * split_size
                               else split_size))
                  (seq 0 num))
    end.

Fixpoint list_nat_eqb (a b : list nat) : bool :=
  match a, b with
  | [], [] => true
  | x :: a', y :: b' => (x =? y) && list_nat_eqb a' b'
  | _, _ => false
  end.

(** Extents agree everywhere except along [ax]. *)
Definition cat_compatible (ax : nat) (s0 s : list nat) : bool :=
  list_nat_eqb (upd ax (fun _ => 0) s0) (upd ax (fun _ => 0) s).

Fixpoint cat_get (ax : nat) (ts : list tensor) (idx : list nat) : R :=
  match ts with
  | [] => 0%R
  | t :: r =>
      if nth ax idx 0 <? size_at ax t then get t idx
      else cat_get ax r (upd ax (fun p => p - size_at ax t) idx)
  end.

(** [torch.cat(tensors, dim)] *)
Definition cat (ts : list tensor) (dim : Z) : result tensor :=
  match ts with
  | [] => Err (RuntimeError "torch.cat(): expected a non-empty list of Tensors")
  | t0 :: rest =>
      match axis_of (rank t0) dim with
      | None => Err (IndexError "Dimension out of range")
      | Some ax =>
          if forallb (fun t => cat_compatible ax (shape t0) (shape t)) rest
          then Ok (mkT (upd ax (fun _ => list_sum (map (size_at ax) ts))
                            (shape t0))
                       (cat_get ax ts))
          else Err (RuntimeError "Sizes of tensors must match except in dimension")
      end
  end.

(** Exchange the entries at positions [i] and [j]. *)
Definition swap (i j : nat) (l : list nat) : list nat :=
  upd i (fun _ => nth j l 0) (upd j (fun _ => nth i l 0) l).

(** [Tensor.transpose(dim0, dim1)] *)
Definition transpose (t : tensor) (dim0 dim1 : Z) : result tensor :=
  match axis_of (rank t) dim0, axis_of (rank t) dim1 with
  | Some i, Some j => Ok (mkT (swap i j (shape t)) (fun idx => get t (swap i j idx)))
  | _, _ => Err (IndexError "Dimension out of range")
  end.

(** [sum_n n f] is [f 0 + ... + f (n-1)]. *)
Fixpoint sum_n (n : nat) (f : nat -> R) : R :=
  match n with
  | O => 0%R
  | S n' => (sum_n n' f + f n')%R
  end.

(** [torch.bmm(a, b)]: batched matrix product of rank-3 tensors. *)
Definition bmm (a b : tensor) : result tensor :=
  match shape a, shape b with
  | [n; l; m], [n'; m'; p] =>
      if (n =? n') && (m =? m') then
        Ok (mkT [n; l; p]
                (fun idx =>
                   match idx with
                   | [bi; i; j] =>
                       sum_n m (fun x => (get a [bi; i; x] * get b [bi; x; j])%R)
                   | _ => 0%R
                   end))
      else Err (RuntimeError "bmm: batch1 and batch2 have incompatible sizes")
  | _, _ => Err (RuntimeError "bmm: batch1 and batch2 must be 3D tensors")
  end.

(** [t / c] for a scalar [c], over the reals.  For [c = 0] float32
    division yields NaN or an infinity, which the reals do not have (there
    [x / 0] is [0]): the entries of the model mean nothing in that case. *)
Definition div_scalar (t : tensor) (c : R) : tensor :=
  mkT (shape t) (fun idx => (get t idx / c)%R).

(** [F.softmax(t, dim)], over the reals: the exact quotient of
    exponentials.  The float32 result is rounded, and is NaN on a row that
    holds a NaN or an overflowed score. *)
Definition softmax (t : tensor) (dim : Z) : result tensor :=
  match axis_of (rank t) dim with
  | None => Err (IndexError "Dimension out of range")
  | Some ax =>
      Ok (mkT (shape t)
              (fun idx =>
                 (exp (get t idx) /
                  sum_n (size_at ax t)
                        (fun j => exp (get t (upd ax (fun _ => j) idx))))%R))
  end.

(** Position in the original tensor of an entry of the squeezed one. *)
Fixpoint unsqueeze_idx (sh idx : list nat) : list nat :=
  match sh with
  | [] => []
  | d :: sh' =>
      if d =? 1 then 0 :: unsqueeze_idx sh' idx
      else match idx with
           | i :: idx' => i :: unsqueeze_idx sh' idx'
           | [] => []
           end
  end.

(** [Tensor.squeeze()] without argument: every dimension of extent 1 goes. *)
Definition squeeze (t : tensor) : tensor :=
  mkT (filter (fun d => negb (d =? 1)) (shape t))
      (fun idx => get t (unsqueeze_idx (shape t) idx)).

(** Elementwise map, for [nn.Tanh].  Over the reals tanh stays strictly
    inside (-1, 1); float32 tanh saturates to exactly 1 or -1. *)
Definition map_entries (f : R -> R) (t : tensor) : tensor :=
  mkT (shape t) (fun idx => f (get t idx)).

(** [nn.Linear(in_features, out_features)]: [weight] has one row per output
    feature, [y = x W^T + b] along the last dimension. *)
Record Linear : Type := mkLinear {
  in_features : nat;
  out_features : nat;
  weight : nat -> nat -> R;
  bias : nat -> R
}.

Definition Linear_forward (L : Linear) (x : tensor) : result tensor :=
  match rank x with
  | O => Err (RuntimeError "linear: input must have at least one dimension")
  | S r =>
      if size_at r x =? in_features L then
        Ok (mkT (upd r (fun _ => out_features L) (shape x))
                (fun idx =>
                   (sum_n (in_features L)
                          (fun i => get x (upd r (fun _ => i) idx)
                                    * weight L (nth r idx 0%nat) i)
                    + bias L (nth r idx 0%nat))%R))
      else Err (RuntimeError "mat1 and mat2 shapes cannot be multiplied")
  end.

(** [nn.Dropout(p)]: in training mode each entry is kept according to a
    Bernoulli draw ([keep], true with probability [1 - p], so never for
    [p = 1]) and scaled by [1 / (1 - p)], otherwise zeroed; in evaluation
    mode the input is returned. *)
Definition Dropout_forward (p : R) (training : bool) (keep : list nat -> bool)
  (x : tensor) : tensor :=
  if training then
    mkT (shape x)
        (fun idx => if keep idx then (get x idx * / (1 - p))%R else 0%R)
  else x.

End Torch.

(** ** layers/MultiHeadAttention.py *)

Module MHA.
Import Torch.

Open Scope nat_scope.

(** [self._W_k] is a bare [nn.Linear], or [nn.Sequential(nn.Linear, nn.Tanh)]
    when [discard_FC_before_MH] is set. *)
Inductive key_projection : Type :=
| PlainKey (L : Linear)
| TanhKey (L : Linear).

Record MultiHeadAttention : Type := mkMHA {
  _h : nat;
  _k : nat;
  _discard_FC_before_MH : bool;
  _W_q : Linear;
  _W_k : key_projection;
  _W_v : Linear;
  _W_o : Linear;
  _scores : option tensor;
  _dropout : option R;
  training : bool
}.

(** Freshly initialised parameters of one [nn.Linear]. *)
Record params : Type := mkParams { p_weight : nat -> nat -> R; p_bias : nat -> R }.

Definition new_Linear (i o : nat) (p : params) : Linear :=
  mkLinear i o (p_weight p) (p_bias p).

(** [nn.Dropout(p)] refuses a probability outside [0, 1]. *)
Definition new_Dropout (p : R) : result R :=
  if Rlt_dec p 0 then Err (ValueError "dropout probability has to be between 0 and 1")
  else if Rlt_dec 1 p then Err (ValueError "dropout probability has to be between 0 and 1")
  else Ok p.

(** [MultiHeadAttention.__init__]; the initial parameters of the four
    projections are arguments. *)
Definition __init__ (d_model k q v h : nat) (dropout : option R)
  (discard_FC_before_MH : bool) (pq pk pv po : params)
  : result MultiHeadAttention :=
  let W_q := new_Linear d_model (q * h) pq in
  let W_k := if negb discard_FC_before_MH
             then PlainKey (new_Linear d_model (k * h) pk)
             else TanhKey (new_Linear d_model (k * h) pk) in
  let W_v := new_Linear d_model (v * h) pv in
  let W_o := new_Linear (h * v) d_model po in
  (drop <- match dropout with
           | None => Ok None
           | Some p => (d <- new_Dropout p ;; Ok (Some d))
           end ;;
   Ok (mkMHA h k discard_FC_before_MH W_q W_k W_v W_o None drop true))%result.

(** Computations on a module: the module is threaded through and is kept
    as it is when an exception is raised. *)
Definition M (A : Type) : Type :=
  MultiHeadAttention -> result A * MultiHeadAttention.

Definition mret {A : Type} (a : A) : M A := fun self => (Ok a, self).

Definition mbind {A B : Type} (m : M A) (f : A -> M B) : M B :=
  fun self =>
    match m self with
    | (Ok a, self') => f a self'
    | (Err e, self') => (Err e, self')
    end.

Definition lift {A : Type} (r : result A) : M A := fun self => (r, self).

Definition get_self : M MultiHeadAttention := fun self => (Ok self, self).

(** The module after [self._scores = s]. *)
Definition with_scores (self : MultiHeadAttention) (s : tensor)
  : MultiHeadAttention :=
  mkMHA (_h self) (_k self) (_discard_FC_before_MH self)
        (_W_q self) (_W_k self) (_W_v self) (_W_o self)
        (Some s) (_dropout self) (training self).

(** [self._scores = s] *)
Definition set_scores (s : tensor) : M unit :=
  fun self => (Ok tt, with_scores self s).

(** The [nn.Linear] inside the key projection. *)
Definition key_linear (p : key_projection) : Linear :=
  match p with
  | PlainKey L => L
  | TanhKey L => L
  end.

(** The extents that [__init__] gives the four projections. *)
Definition projections_sized (d_model k q v : nat)
  (self : MultiHeadAttention) : Prop :=
  _k self = k /\
  in_features (_W_q self) = d_model /\
  out_features (_W_q self) = q * _h self /\
  in_features (key_linear (_W_k self)) = d_model /\
  out_features (key_linear (_W_k self)) = k * _h self /\
  in_features (_W_v self) = d_model /\
  out_features (_W_v self) = v * _h self /\
  in_features (_W_o self) = _h self * v /\
  out_features (_W_o self) = d_model.

(** The weights that line 118 leaves in [self._scores], given the
    softmax output [w]. *)
Definition after_dropout (self : MultiHeadAttention)
  (keep : list nat -> bool) (w : tensor) : tensor :=
  match _dropout self with
  | None => w
  | Some p => Dropout_forward p (training self) keep w
  end.

(** Reading [self._scores] where a tensor is required. *)
Definition read_scores : M tensor :=
  fun self =>
    match _scores self with
    | Some s => (Ok s, self)
    | None => (Err (TypeError "expected Tensor, got NoneType"), self)
    end.

Declare Scope mha_scope.
Delimit Scope mha_scope with mha.
Notation "x <~ m ;; k" := (mbind m (fun x => k))
  (at level 61, m at next level, right associativity) : mha_scope.
Notation "m >> k" := (mbind m (fun _ => k))
  (at level 61, right associativity) : mha_scope.

Open Scope mha_scope.

Definition W_k_forward (p : key_projection) (x : tensor) : result tensor :=
  match p with
  | PlainKey L => Linear_forward L x
  | TanhKey L => (y <- Linear_forward L x ;; Ok (map_entries tanh y))%result
  end.

(** [torch.cat(x.chunk(h, dim=-1), dim=0)] *)
Definition heads_to_batch (h : nat) (x : tensor) : result tensor :=
  (cs <- chunk x h (-1) ;; cat cs 0)%result.

(** [torch.cat(x.chunk(h, dim=0), dim=-1)] *)
Definition batch_to_heads (h : nat) (x : tensor) : result tensor :=
  (cs <- chunk x h 0 ;; cat cs (-1))%result.

(** Lines 107-109: project and fold the heads into the batch axis. *)
Definition project_heads (query key value : tensor)
  : M (tensor * tensor * tensor) :=
  self <~ get_self ;;
  queries <~ lift (q <- Linear_forward (_W_q self) query ;;
                   heads_to_batch (_h self) q)%result ;;
  keys <~ lift (k <- W_k_forward (_W_k self) key ;;
                heads_to_batch (_h self) k)%result ;;
  values <~ lift (v <- Linear_forward (_W_v self) value ;;
                  heads_to_batch (_h self) v)%result ;;
  mret (queries, keys, values).

(** Line 112 *)
Definition scaled_dot_product (queries keys : tensor) : M unit :=
  self <~ get_self ;;
  s <~ lift (kt <- transpose keys 1 2 ;; bmm queries kt)%result ;;
  set_scores (div_scalar s (sqrt (INR (_k self)))).

(** Line 115 *)
Definition apply_softmax : M unit :=
  s <~ read_scores ;;
  w <~ lift (softmax s (-1)) ;;
  set_scores w.

(** Lines 117-118; [keep] is the Bernoulli draw of this call. *)
Definition apply_dropout (keep : list nat -> bool) : M unit :=
  self <~ get_self ;;
  match _dropout self with
  | None => mret tt
  | Some p =>
      s <~ read_scores ;;
      set_scores (Dropout_forward p (training self) keep s)
  end.

(** Line 120 *)
Definition weighted_values (values : tensor) : M tensor :=
  s <~ read_scores ;;
  lift (bmm s values).

(** Lines 112-120: the scaled dot-product attention on head-folded inputs. *)
Definition attention_core (queries keys values : tensor)
  (keep : list nat -> bool) : M tensor :=
  scaled_dot_product queries keys >>
  apply_softmax >>
  apply_dropout keep >>
  weighted_values values.

(** [forward] cut after line 115; the head-folded values are handed on. *)
Definition forward_until_softmax (query key value : tensor) : M tensor :=
  qkv <~ project_heads query key value ;;
  let '(queries, keys, values) := qkv in
  scaled_dot_product queries keys >>
  apply_softmax >>
  mret values.

(** [MultiHeadAttention.forward] *)
Definition forward (query key value : tensor) (mask : option string)
  (keep : list nat -> bool) : M tensor :=
  qkv <~ project_heads query key value ;;
  let '(queries, keys, values) := qkv in
  attention <~ attention_core queries keys values keep ;;
  self <~ get_self ;;
  attention_heads <~ lift (batch_to_heads (_h self) attention) ;;
  self_attention <~ lift (Linear_forward (_W_o self) attention_heads) ;;
  mret (squeeze self_attention).

(** The claimed attention, written from the formula
    [softmax(Q K^T / sqrt(dk)) V]: [scaled_score] is the dot product of
    query row [i] and key row [l] over [dk] features divided by the square
    root of [dkey]; [softmax_weight] normalises it over the [Lk] keys. *)
Definition scaled_score (dk dkey : nat) (Q K : tensor) (n i l : nat) : R :=
  (sum_n dk (fun d => get Q [n; i; d] * get K [n; l; d]) / sqrt (INR dkey))%R.

Definition softmax_weight (dk dkey Lk : nat) (Q K : tensor) (n i l : nat) : R :=
  (exp (scaled_score dk dkey Q K n i l) /
   sum_n Lk (fun l' => exp (scaled_score dk dkey Q K n i l')))%R.

Definition spec_attention (N Lq Lk dk dv : nat) (Q K V : tensor) : tensor :=
  mkT [N; Lq; dv]
      (fun idx =>
         match idx with
         | [n; i; j] =>
             sum_n Lk (fun l => (softmax_weight dk dk Lk Q K n i l
                                 * get V [n; l; j])%R)
         | _ => 0%R
         end).

(** The weights that lines 112-115 leave in [self._scores], entry by
    entry: the scale is the configured [self._k]. *)
Definition weights_of (self : MultiHeadAttention) (N Lq Lk dk : nat)
  (Q K : tensor) : tensor :=
  mkT [N; Lq; Lk]
      (fun idx =>
         match idx with
         | [n; i; l] => softmax_weight dk (_k self) Lk Q K n i l
         | _ => 0%R
         end).

(** Two states of a module that differ at most in [_scores]. *)
Definition same_parameters (s s' : MultiHeadAttention) : Prop :=
  _h s = _h s' /\ _k s = _k s' /\
  _discard_FC_before_MH s = _discard_FC_before_MH s' /\
  _W_q s = _W_q s' /\ _W_k s = _W_k s' /\ _W_v s = _W_v s' /\
  _W_o s = _W_o s' /\ _dropout s = _dropout s' /\ training s = training s'.

(** A computation that leaves every field but [_scores] as it found it,
    whether it returns or raises. *)
Definition frames {A : Type} (m : M A) : Prop :=
  forall s, same_parameters s (snd (m s)).

(** Dropout does nothing: none configured, or evaluation mode. *)
Definition dropout_disabled (s : MultiHeadAttention) : Prop :=
  _dropout s = None \/ training s = false.

Close Scope mha_scope.

End MHA.

(** ** Sample attention modules and inputs *)

Module Samples.
Import Torch MHA.

Definition zero_params : params := mkParams (fun _ _ => 0%R) (fun _ => 0%R).

(** [MultiHeadAttention(d_model=2, k=1, q=1, v=1, h=2, dropout, False)] with
    all parameters zero, as [__init__] builds it. *)
Definition sample_module (dropout : option R) : MultiHeadAttention :=
  mkMHA 2 1 false
        (new_Linear 2 (1 * 2) zero_params)
        (PlainKey (new_Linear 2 (1 * 2) zero_params))
        (new_Linear 2 (1 * 2) zero_params)
        (new_Linear (2 * 1) 2 zero_params)
        None dropout true.

(** A tensor of the given extents whose entries count along the last
    axis. *)
Definition ramp (sh : list nat) : tensor :=
  mkT sh (fun idx => INR (last idx 0%nat)).

Definition keep_all : list nat -> bool := fun _ => true.

(** [MultiHeadAttention(d_model=2, k=1, q=3, v=1, h=2, None, False)]:
    query and key dimensions differ. *)
Definition mismatched_module : MultiHeadAttention :=
  mkMHA 2 1 false
        (new_Linear 2 (3 * 2) zero_params)
        (PlainKey (new_Linear 2 (1 * 2) zero_params))
        (new_Linear 2 (1 * 2) zero_params)
        (new_Linear (2 * 1) 2 zero_params)
        None None true.

(** [MultiHeadAttention(d_model=2, k=1, q=1, v=1, h=0, None, False)] *)
Definition headless_module : MultiHeadAttention :=
  mkMHA 0 1 false
        (new_Linear 2 (1 * 0) zero_params)
        (PlainKey (new_Linear 2 (1 * 0) zero_params))
        (new_Linear 2 (1 * 0) zero_params)
        (new_Linear (0 * 1) 2 zero_params)
        None None true.

End Samples.

(** ** model/final_model.py *)

Module Final.

Open Scope string_scope.
Open Scope Z_scope.
Open Scope result_scope.

(** A Python value flowing through [forward]: a tensor or a pair. *)
Inductive pyval (T : Type) : Type :=
| Tensor (t : T)
| Tuple (a b : pyval T).

Arguments Tensor {T} t.
Arguments Tuple {T} a b.

(** *** Submodules

    The classes instantiated by [FinalModel.__init__], with the arguments
    they are given.  Rates (Python floats) are kept as rationals. *)

Record block_args : Type := mkBlockArgs {
  in_channels : Z;
  out_channels : Z;
  mid_kernels_size : Z;
  last_kernel_size : Z;
  stride : Z;
  blk_down_sample : string;
  drop_out : Q;
  blk_norm_type : string;
  blk_norm_pos : string
}.

(** [use_reduced_head_dims if use_reduced_head_dims is not None else False] *)
Inductive head_dims : Type :=
| HD_int (n : Z)
| HD_False.

Inductive layer : Type :=
| Conv1d (in_ch out_ch kernel_size : Z)
| BatchNorm1d (num_features : Z)
| InstanceNorm1d (num_features : Z) (affine : bool)
| LeakyReLU (negative_slope : Q)
| Dropout (p : Q)
| BasicBlock1dWithNormPreactivation (a : block_args) (norm_before_act : option bool)
| BasicBlock1dWithNorm (a : block_args) (skips_active : bool)
| GRU (input_size hidden_size num_layers : Z) (bidirectional batch_first : bool)
| MultiHeadContextualAttention (d_model : Z) (dropout : Q) (heads : Z)
    (discard_FC_before_MH : bool) (use_reduced_head_dims : head_dims)
    (attention_activation_function : string)
| MultiHeadContextualAttentionV2 (d_model : Z) (dropout : Q) (heads : Z)
    (discard_FC_before_MH : bool)
| MultiHeadContextualAttentionV3 (d_model : Z) (dropout : Q) (heads : Z)
    (discard_FC_before_MH : bool)
| MultiHeadContextualAttentionV4 (d_model : Z) (dropout : Q) (heads : Z)
    (discard_FC_before_MH : bool)
| MultiHeadContextualAttentionV5 (d_model : Z) (dropout : Q) (heads : Z)
    (discard_FC_before_MH : bool)
| Linear (in_features out_features : Z)
| Sigmoid
| LogSoftmax (dim : Z).

Inductive module : Type :=
| Layer (l : layer)
| Sequential (ls : list layer).

(** What [FinalModel] relies on without defining it: whether a submodule
    constructor raises, what a constructed submodule returns when called,
    and the two tensor operations used directly by [forward]. *)
Record Collaborators (T : Type) : Type := mkCollaborators {
  construct : layer -> result unit;
  call : layer -> pyval T -> result (pyval T);
  permute : T -> list Z -> result T;
  iterate : T -> result (list T)
}.

Arguments construct {T} _ _.
Arguments call {T} _ _ _.
Arguments permute {T} _ _ _.
Arguments iterate {T} _ _.

(** *** Configuration: the arguments of [FinalModel.__init__] *)

Record config : Type := mkConfig {
  apply_final_activation : bool;
  multi_label_training : bool;
  input_channel : Z;
  num_classes : Z;
  drop_out_first_conv_blocks : Q;
  drop_out_second_conv_blocks : Q;
  drop_out_gru : Q;
  dropout_last_bn : Q;
  mid_kernel_size_first_conv_blocks : Z;
  mid_kernel_size_second_conv_blocks : Z;
  last_kernel_size_first_conv_blocks : Z;
  last_kernel_size_second_conv_blocks : Z;
  stride_first_conv_blocks : Z;
  stride_second_conv_blocks : Z;
  down_sample : string;
  vary_channels : bool;
  pos_skip : string;
  norm_type : string;
  norm_pos : string;
  norm_before_act : option bool;
  use_pre_activation_design : bool;
  use_pre_conv : bool;
  pre_conv_kernel : Z;
  gru_units : Z;
  dropout_attention : Q;
  heads_ : Z;
  discard_FC_before_MH_ : bool;
  use_reduced_head_dims_ : option Z;
  attention_activation_function_ : option string;
  attention_type : string
}.

(** The defaults of the signature. *)
Definition default_config (apply_final_activation multi_label_training : bool)
  : config :=
  mkConfig apply_final_activation multi_label_training 12 9
           (2 # 10) (2 # 10) (2 # 10) (2 # 10)
           3 3 24 48 2 2
           "conv" true "not_last" "BN" "all" (Some true)
           true true 16
           12 (2 # 10) 3 false None None "v2".

(** *** The constructed model: the attributes set by [__init__] *)

Record FinalModel : Type := mkFinalModel {
  _apply_final_activation : bool;
  _pos_skip : string;
  _use_pre_conv : bool;
  _use_pre_activation_design : bool;
  _starting_conv : option module;
  _first_conv_block_1 : option module;
  _first_conv_block_2 : module;
  _first_conv_block_3 : module;
  _first_conv_block_4 : module;
  _second_conv_block_1 : option module;
  _biGRU : module;
  _biGru_activation_do : module;
  _multi_head_contextual_attention : module;
  _batchNorm : module;
  _fcn : module;
  _final_activation : option module
}.

(** [assert cond, msg] *)
Definition assert (cond : bool) (msg : string) : result unit :=
  if cond then Ok tt else Err (AssertionError msg).

Definition is_None {A : Type} (o : option A) : bool :=
  match o with
  | None => true
  | Some _ => false
  end.

(** Truth value of [use_reduced_head_dims] (an int or [None]). *)
Definition truthy_int (o : option Z) : bool :=
  match o with
  | None => false
  | Some n => negb (n =? 0)
  end.

(** Truth value of [norm_before_act] (a bool or [None]). *)
Definition truthy_bool (o : option bool) : bool :=
  match o with
  | Some true => true
  | _ => false
  end.

Definition msg_down_sample : string :=
  "Downsampling should either be conv or max_pool or avg_pool".
Definition msg_reduced_head_dims : string :=
  "use_reduced_head_dims can only be used with attention_type=v1!".
Definition msg_attention_activation : string :=
  "attention_activation_function can only be used with attention_type=v1!".
Definition msg_divisible : string :=
  "Twice the number of GRU cells (d_model) must be divisible by num_heads!".
Definition msg_pos_skip : string :=
  "For the preactivation design, ''not first'' is no validoption for the skip connections! Choose between ''all'' and ''not last''".
Definition msg_norm_before_act : string :=
  "Norm after activation not possible without preactivation design".

(** The tags accepted for [down_sample], [attention_type], [norm_type]. *)
Definition known_down_sample (s : string) : bool :=
  ((s =? "conv") || (s =? "max_pool") || (s =? "avg_pool"))%string.

Definition known_attention_type (s : string) : bool :=
  ((s =? "v1") || (s =? "v2") || (s =? "v3") || (s =? "v4") || (s =? "v5"))%string.

Definition known_norm_type (s : string) : bool :=
  ((s =? "BN") || (s =? "IN"))%string.

(** Lines 36-56: the assertions that open [__init__]. *)
Definition validate (cfg : config) : result unit :=
  assert ((down_sample cfg =? "conv") || (down_sample cfg =? "max_pool")
          || (down_sample cfg =? "avg_pool"))%string
         msg_down_sample ;;;
  assert (is_None (use_reduced_head_dims_ cfg)
          || (attention_type cfg =? "v1")%string)
         msg_reduced_head_dims ;;;
  assert (is_None (attention_activation_function_ cfg)
          || (attention_type cfg =? "v1")%string)
         msg_attention_activation ;;;
  (if truthy_int (use_reduced_head_dims_ cfg) then
     if heads_ cfg =? 0 then Err ZeroDivisionError
     else assert ((2 * gru_units cfg) mod heads_ cfg =? 0) msg_divisible
   else Ok tt) ;;;
  if use_pre_activation_design cfg then
    assert ((pos_skip cfg =? "all") || (pos_skip cfg =? "not_last"))%string
           msg_pos_skip
  else
    assert (is_None (norm_before_act cfg)
            || match norm_before_act cfg with Some true => true | _ => false end)
           msg_norm_before_act.

Section Model.

Context {T : Type} (C : Collaborators T).

(** Instantiating a submodule class. *)
Definition new (l : layer) : result layer := construct C l ;;; Ok l.

(** Reading the local [starting_norm], bound only for "BN" and "IN". *)
Definition local_starting_norm (o : option layer) : result layer :=
  match o with
  | Some l => Ok l
  | None => Err (UnboundLocalError "starting_norm")
  end.

(** Lines 72-89 *)
Definition build_starting_conv (cfg : config) : result (option module) :=
  if use_pre_activation_design cfg && use_pre_conv cfg then
    starting_norm <-
      (if (norm_type cfg =? "BN")%string then
         (n <- new (BatchNorm1d (input_channel cfg)) ;; Ok (Some n))
       else if (norm_type cfg =? "IN")%string then
         (n <- new (InstanceNorm1d (input_channel cfg) true) ;; Ok (Some n))
       else Ok None) ;;
    if truthy_bool (norm_before_act cfg) then
      conv <- new (Conv1d (input_channel cfg) (input_channel cfg)
                          (pre_conv_kernel cfg)) ;;
      norm <- local_starting_norm starting_norm ;;
      act <- new (LeakyReLU (3 # 10)) ;;
      Ok (Some (Sequential [conv; norm; act]))
    else
      conv <- new (Conv1d (input_channel cfg) (input_channel cfg)
                          (pre_conv_kernel cfg)) ;;
      act <- new (LeakyReLU (3 # 10)) ;;
      norm <- local_starting_norm starting_norm ;;
      Ok (Some (Sequential [conv; act; norm]))
  else Ok None.

Definition first_block_args (cfg : config) (cin cout : Z) : block_args :=
  mkBlockArgs cin cout
              (mid_kernel_size_first_conv_blocks cfg)
              (last_kernel_size_first_conv_blocks cfg)
              (stride_first_conv_blocks cfg)
              (down_sample cfg) (drop_out_first_conv_blocks cfg)
              (norm_type cfg) (norm_pos cfg).

Definition second_block_args (cfg : config) (cin cout : Z) : block_args :=
  mkBlockArgs cin cout
              (mid_kernel_size_second_conv_blocks cfg)
              (last_kernel_size_second_conv_blocks cfg)
              (stride_second_conv_blocks cfg)
              (down_sample cfg) (drop_out_second_conv_blocks cfg)
              (norm_type cfg) (norm_pos cfg).

(** Lines 62-70: the output channels of the five blocks. *)
Definition out_channel_blocks (cfg : config) : Z * Z * Z * Z * Z :=
  if vary_channels cfg then (24, 48, 48, 24, 12) else (12, 12, 12, 12, 12).

Definition some_layer (l : layer) : option module := Some (Layer l).

(** Lines 91-225: the five residual blocks, in the order of the source. *)
Definition build_blocks (cfg : config)
  : result (option module * module * module * module * option module) :=
  let '(c1, c2, c3, c4, c5) := out_channel_blocks cfg in
  let nba := norm_before_act cfg in
  if use_pre_activation_design cfg then
    b1 <- new (BasicBlock1dWithNormPreactivation
                 (first_block_args cfg (input_channel cfg) c1) nba) ;;
    b2 <- new (BasicBlock1dWithNormPreactivation (first_block_args cfg c1 c2) nba) ;;
    b3 <- new (BasicBlock1dWithNormPreactivation (first_block_args cfg c2 c3) nba) ;;
    b4 <- new (BasicBlock1dWithNormPreactivation (first_block_args cfg c3 c4) nba) ;;
    s1 <- (if (pos_skip cfg =? "all")%string then
             (b <- new (BasicBlock1dWithNormPreactivation
                          (second_block_args cfg c4 c5) nba) ;;
              Ok (some_layer b))
           else if (pos_skip cfg =? "not_last")%string then
             (b <- new (BasicBlock1dWithNorm (second_block_args cfg c4 c5) false) ;;
              Ok (some_layer b))
           else Ok None) ;;
    Ok (some_layer b1, Layer b2, Layer b3, Layer b4, s1)
  else
    b1 <- (if (pos_skip cfg =? "all")%string || (pos_skip cfg =? "not_last")%string then
             (b <- new (BasicBlock1dWithNorm
                          (first_block_args cfg (input_channel cfg) c1) true) ;;
              Ok (some_layer b))
           else if (pos_skip cfg =? "not_first")%string then
             (b <- new (BasicBlock1dWithNorm
                          (first_block_args cfg (input_channel cfg) c1) false) ;;
              Ok (some_layer b))
           else Ok None) ;;
    b2 <- new (BasicBlock1dWithNorm (first_block_args cfg c1 c2) true) ;;
    b3 <- new (BasicBlock1dWithNorm (first_block_args cfg c2 c3) true) ;;
    b4 <- new (BasicBlock1dWithNorm (first_block_args cfg c3 c4) true) ;;
    s1 <- (if (pos_skip cfg =? "all")%string || (pos_skip cfg =? "not_first")%string then
             (b <- new (BasicBlock1dWithNorm (second_block_args cfg c4 c5) true) ;;
              Ok (some_layer b))
           else if (pos_skip cfg =? "not_last")%string then
             (b <- new (BasicBlock1dWithNorm (second_block_args cfg c4 c5) false) ;;
              Ok (some_layer b))
           else Ok None) ;;
    Ok (b1, Layer b2, Layer b3, Layer b4, s1).

(** Lines 239-275: [match attention_type]. *)
Definition build_attention (cfg : config) : result module :=
  let d_model := 2 * gru_units cfg in
  let a := attention_type cfg in
  if (a =? "v1")%string then
    let head_dims := match use_reduced_head_dims_ cfg with
                     | Some n => HD_int n
                     | None => HD_False
                     end in
    let attention_activation :=
      match attention_activation_function_ cfg with
      | Some f => f
      | None => "softmax"
      end in
    l <- new (MultiHeadContextualAttention d_model (dropout_attention cfg)
                (heads_ cfg) (discard_FC_before_MH_ cfg)
                head_dims attention_activation) ;;
    Ok (Layer l)
  else if (a =? "v2")%string then
    l <- new (MultiHeadContextualAttentionV2 d_model (dropout_attention cfg)
                (heads_ cfg) (discard_FC_before_MH_ cfg)) ;;
    Ok (Layer l)
  else if (a =? "v3")%string then
    l <- new (MultiHeadContextualAttentionV3 d_model (dropout_attention cfg)
                (heads_ cfg) (discard_FC_before_MH_ cfg)) ;;
    Ok (Layer l)
  else if (a =? "v4")%string then
    l <- new (MultiHeadContextualAttentionV4 d_model (dropout_attention cfg)
                (heads_ cfg) (discard_FC_before_MH_ cfg)) ;;
    Ok (Layer l)
  else if (a =? "v5")%string then
    l <- new (MultiHeadContextualAttentionV5 d_model (dropout_attention cfg)
                (heads_ cfg) (discard_FC_before_MH_ cfg)) ;;
    Ok (Layer l)
  else Err (ValueError ("Attention type " ++ a ++ " not supported!")%string).

(** [FinalModel.__init__] *)
Definition __init__ (cfg : config) : result FinalModel :=
  validate cfg ;;;
  starting_conv <- build_starting_conv cfg ;;
  blocks <- build_blocks cfg ;;
  let '(b1, b2, b3, b4, s1) := blocks in
  let '(_, _, _, _, c5) := out_channel_blocks cfg in
  gru <- new (GRU c5 (gru_units cfg) 1 true true) ;;
  gru_act <- new (LeakyReLU (3 # 10)) ;;
  gru_do <- new (Dropout (drop_out_gru cfg)) ;;
  attention <- build_attention cfg ;;
  bn <- new (BatchNorm1d (gru_units cfg * 2)) ;;
  bn_act <- new (LeakyReLU (3 # 10)) ;;
  bn_do <- new (Dropout (dropout_last_bn cfg)) ;;
  fcn <- new (Linear (gru_units cfg * 2) (num_classes cfg)) ;;
  final <- (if apply_final_activation cfg then
              (f <- (if multi_label_training cfg then new Sigmoid
                     else new (LogSoftmax 1)) ;;
               Ok (some_layer f))
            else Ok None) ;;
  Ok (mkFinalModel (apply_final_activation cfg) (pos_skip cfg)
                   (use_pre_conv cfg) (use_pre_activation_design cfg)
                   starting_conv b1 b2 b3 b4 s1
                   (Layer gru) (Sequential [gru_act; gru_do])
                   attention (Sequential [bn; bn_act; bn_do])
                   (Layer fcn) final).

(** *** [forward]

    Calls to submodules are recorded, in order, with the attribute through
    which the submodule was reached and the argument it received. *)

Definition call_log : Type := list (string * pyval T).

Definition FM (A : Type) : Type := call_log -> result A * call_log.

Definition fret {A : Type} (a : A) : FM A := fun log => (Ok a, log).

Definition fbind {A B : Type} (m : FM A) (f : A -> FM B) : FM B :=
  fun log =>
    match m log with
    | (Ok a, log') => f a log'
    | (Err e, log') => (Err e, log')
    end.

Definition flift {A : Type} (r : result A) : FM A := fun log => (r, log).

(** [nn.Sequential.forward]: the layers in order. *)
Fixpoint run_layers (ls : list layer) (v : pyval T) : result (pyval T) :=
  match ls with
  | [] => Ok v
  | l :: r => v' <- call C l v ;; run_layers r v'
  end.

Definition run (m : module) (v : pyval T) : result (pyval T) :=
  match m with
  | Layer l => call C l v
  | Sequential ls => run_layers ls v
  end.

Definition no_attribute (name : string) : pyerror :=
  AttributeError ("'FinalModel' object has no attribute '" ++ name ++ "'")%string.

(** [self.<name>(v)] for an attribute that [__init__] may not have set. *)
Definition call_attr (name : string) (m : option module) (v : pyval T)
  : FM (pyval T) :=
  match m with
  | None => flift (Err (no_attribute name))
  | Some m' => fun log => (run m' v, (log ++ [(name, v)])%list)
  end.

(** [a, b = v] *)
Definition unpack2 (v : pyval T) : result (pyval T * pyval T) :=
  match v with
  | Tuple a b => Ok (a, b)
  | Tensor t =>
      l <- iterate C t ;;
      match l with
      | [a; b] => Ok (Tensor a, Tensor b)
      | [] | [_] => Err (ValueError "not enough values to unpack (expected 2)")
      | _ => Err (ValueError "too many values to unpack (expected 2)")
      end
  end.

(** [x.permute(0, 2, 1)] *)
Definition permute021 (v : pyval T) : result (pyval T) :=
  match v with
  | Tensor t => t' <- permute C t [0; 2; 1] ;; Ok (Tensor t')
  | Tuple _ _ => Err (AttributeError "'tuple' object has no attribute 'permute'")
  end.

Declare Scope fm_scope.
Delimit Scope fm_scope with fm.
Notation "x <~ m ;; k" := (fbind m (fun x => k))
  (at level 61, m at next level, right associativity) : fm_scope.

Open Scope fm_scope.

(** Lines 291-292: the optional convolution in front of the blocks. *)
Definition pre_conv_stage (self : FinalModel) (x : pyval T) : FM (pyval T) :=
  if _use_pre_conv self then call_attr "_starting_conv" (_starting_conv self) x
  else fret x.

(** Lines 298-307: the second-stage block of the pre-activation design,
    with the unpacking of the (output, residual) pair around it. *)
Definition preact_last_block (self : FinalModel) (x : pyval T)
  : FM (pyval T) :=
  x <~ (if (_pos_skip self =? "all")%string then
          call_attr "_second_conv_block_1" (_second_conv_block_1 self) x
        else if (_pos_skip self =? "not_last")%string then
          p <~ flift (unpack2 x) ;;
          call_attr "_second_conv_block_1" (_second_conv_block_1 self) (fst p)
        else fret x) ;;
  if (_pos_skip self =? "all")%string then
    p <~ flift (unpack2 x) ;; fret (fst p)
  else fret x.

(** Lines 290-313: the residual blocks. *)
Definition conv_stage (self : FinalModel) (x : pyval T) : FM (pyval T) :=
  if _use_pre_activation_design self then
    x <~ pre_conv_stage self x ;;
    x <~ call_attr "_first_conv_block_1" (_first_conv_block_1 self) (Tuple x x) ;;
    x <~ call_attr "_first_conv_block_2" (Some (_first_conv_block_2 self)) x ;;
    x <~ call_attr "_first_conv_block_3" (Some (_first_conv_block_3 self)) x ;;
    x <~ call_attr "_first_conv_block_4" (Some (_first_conv_block_4 self)) x ;;
    preact_last_block self x
  else
    x <~ call_attr "_first_conv_block_1" (_first_conv_block_1 self) x ;;
    x <~ call_attr "_first_conv_block_2" (Some (_first_conv_block_2 self)) x ;;
    x <~ call_attr "_first_conv_block_3" (Some (_first_conv_block_3 self)) x ;;
    x <~ call_attr "_first_conv_block_4" (Some (_first_conv_block_4 self)) x ;;
    call_attr "_second_conv_block_1" (_second_conv_block_1 self) x.

(** Lines 315-324: recurrent encoder, attention pooling and classifier. *)
Definition head_stage (self : FinalModel) (x : pyval T) : FM (pyval T) :=
  x <~ flift (permute021 x) ;;
  r <~ call_attr "_biGRU" (Some (_biGRU self)) x ;;
  p <~ flift (unpack2 r) ;;
  x <~ call_attr "_biGru_activation_do" (Some (_biGru_activation_do self)) (fst p) ;;
  x <~ call_attr "_multi_head_contextual_attention"
                 (Some (_multi_head_contextual_attention self)) x ;;
  x <~ call_attr "_batchNorm" (Some (_batchNorm self)) x ;;
  x <~ call_attr "_fcn" (Some (_fcn self)) x ;;
  if _apply_final_activation self then
    call_attr "_final_activation" (_final_activation self) x
  else fret x.

(** [FinalModel.forward] *)
Definition forward (self : FinalModel) (x : pyval T) : FM (pyval T) :=
  x <~ conv_stage self x ;;
  head_stage self x.

(** The calls that the claim on the residual chain expects of the four
    first-stage blocks: the first one receives the pair (x0, x0), each
    later one what its predecessor returned; the chain stops at the first
    block that raises. *)
Definition residual_chain (self : FinalModel) (m1 : module) (x0 : pyval T)
  : list (string * pyval T) :=
  ("_first_conv_block_1", Tuple x0 x0) ::
  match run m1 (Tuple x0 x0) with
  | Err _ => []
  | Ok y1 =>
      ("_first_conv_block_2", y1) ::
      match run (_first_conv_block_2 self) y1 with
      | Err _ => []
      | Ok y2 =>
          ("_first_conv_block_3", y2) ::
          match run (_first_conv_block_3 self) y2 with
          | Err _ => []
          | Ok y3 => [("_first_conv_block_4", y3)]
          end
      end
  end.

Close Scope fm_scope.

End Model.

Definition is_first_stage_block (name : string) : bool :=
  ((name =? "_first_conv_block_1") || (name =? "_first_conv_block_2")
   || (name =? "_first_conv_block_3") || (name =? "_first_conv_block_4"))%string.

(** The calls of [log] that went to the four first-stage blocks. *)
Definition first_stage_calls {T : Type} (log : list (string * pyval T))
  : list (string * pyval T) :=
  filter (fun c => is_first_stage_block (fst c)) log.

(** A computation is quiet when it adds no first-stage call to the log. *)
Definition quiet {T A : Type} (m : @FM T A) : Prop :=
  forall log, exists ext,
    snd (m log) = (log ++ ext)%list /\ first_stage_calls ext = [].

(** The arguments of a residual block. *)
Definition block_of (m : module) : option block_args :=
  match m with
  | Layer (BasicBlock1dWithNormPreactivation a _) => Some a
  | Layer (BasicBlock1dWithNorm a _) => Some a
  | _ => None
  end.

(** The calls of [log] made through attribute [name]. *)
Definition calls_to {T : Type} (name : string)
  (log : list (string * pyval T)) : list (string * pyval T) :=
  filter (fun c => (fst c =? name)%string) log.

(** A computation that makes no call through attribute [name]. *)
Definition silent {T A : Type} (name : string) (m : @FM T A) : Prop :=
  forall log, exists ext,
    snd (m log) = (log ++ ext)%list /\ calls_to name ext = [].

(** The attributes that a pass through [forward] goes through, in the
    order of lines 290-324. *)
Definition pipeline (self : FinalModel) : list string :=
  ((if _use_pre_activation_design self then
      (if _use_pre_conv self then ["_starting_conv"] else [])
      ++ ["_first_conv_block_1"; "_first_conv_block_2";
          "_first_conv_block_3"; "_first_conv_block_4"]
      ++ (if (_pos_skip self =? "all")%string
             || (_pos_skip self =? "not_last")%string
          then ["_second_conv_block_1"] else [])
    else ["_first_conv_block_1"; "_first_conv_block_2";
          "_first_conv_block_3"; "_first_conv_block_4";
          "_second_conv_block_1"])
   ++ ["_biGRU"; "_biGru_activation_do"; "_multi_head_contextual_attention";
       "_batchNorm"; "_fcn"]
   ++ (if _apply_final_activation self then ["_final_activation"] else []))%list.

Definition is_prefix (l full : list string) : Prop :=
  exists rest, full = (l ++ rest)%list.

(** A computation whose calls go through the attributes [expected], in
    that order: all of them when it returns, the first few when it
    raises. *)
Definition traces {T A : Type} (expected : list string) (m : @FM T A)
  : Prop :=
  forall log, exists ext,
    snd (m log) = (log ++ ext)%list /\
    is_prefix (map fst ext) expected /\
    (forall a, fst (m log) = Ok a -> map fst ext = expected).

End Final.

(** ** Extents through the model

    An instance of [Collaborators] that tracks the extents of the tensors
    only.  The torch layers follow torch's documented shape rules. *)

Module Shapes.
Import Final.

Open Scope string_scope.
Open Scope Z_scope.
Open Scope result_scope.

Definition shp : Type := list Z.

Definition shape_error : pyerror := RuntimeError "shape mismatch".
Definition not_a_tensor : pyerror := TypeError "expected Tensor, got tuple".

(** Modelled from the spec: the constructors of [BasicBlock1dWithNorm] and
    [BasicBlock1dWithNormPreactivation] (layers/BasicBlock1dWithNorm.py and
    layers/BasicBlock1dWithNormPreActivationDesign.py are not part of the
    embedded files) fail on an unrecognised downsampling strategy; every
    other constructor is taken to succeed. *)
Definition shape_construct (l : layer) : result unit :=
  match l with
  | BasicBlock1dWithNormPreactivation a _ | BasicBlock1dWithNorm a _ =>
      if known_down_sample (blk_down_sample a) then Ok tt
      else Err (ValueError "unrecognized downsampling strategy")
  | _ => Ok tt
  end.

(** [nn.Conv1d], stride 1 and no padding. *)
Definition conv1d_shape (cin cout k : Z) (s : shp) : result shp :=
  match s with
  | [b; c; n] =>
      if (c =? cin) && (0 <? k) && (k <=? n) then Ok [b; cout; n - k + 1]
      else Err shape_error
  | _ => Err shape_error
  end.

(** [nn.BatchNorm1d] and [nn.InstanceNorm1d]: the channel count is checked. *)
Definition norm1d_shape (nf : Z) (allow_2d : bool) (s : shp) : result shp :=
  match s with
  | [b; c] => if allow_2d && (c =? nf) then Ok s else Err shape_error
  | [b; c; n] => if c =? nf then Ok s else Err shape_error
  | _ => Err shape_error
  end.

(** [nn.GRU(batch_first=True)]: the output sequence and the last hidden
    state. *)
Definition gru_shape (input_size hidden layers : Z) (bidirectional : bool)
  (s : shp) : result (pyval shp) :=
  let dirs := if bidirectional then 2 else 1 in
  match s with
  | [b; t; f] =>
      if f =? input_size
      then Ok (Tuple (Tensor [b; t; dirs * hidden])
                     (Tensor [dirs * layers; b; hidden]))
      else Err shape_error
  | _ => Err shape_error
  end.

(** [nn.Linear] on a batch of vectors. *)
Definition linear_shape (fin fout : Z) (s : shp) : result shp :=
  match s with
  | [b; f] => if f =? fin then Ok [b; fout] else Err shape_error
  | _ => Err shape_error
  end.

(** Modelled from the spec: the residual blocks (not part of the embedded
    files) map (batch, C_in, L) to (batch, C_out, L / stride). *)
Definition block_shape (a : block_args) (s : shp) : result shp :=
  match s with
  | [b; c; n] =>
      if (c =? in_channels a) && (0 <? stride a)
      then Ok [b; out_channels a; n / stride a]
      else Err shape_error
  | _ => Err shape_error
  end.

(** Modelled from the spec: contextual attention pooling
    (layers/ContextualAttention.py is not part of the embedded files) maps
    (batch, T, d_model) to (batch, d_model). *)
Definition pooling_shape (d_model : Z) (s : shp) : result shp :=
  match s with
  | [b; t; d] => if d =? d_model then Ok [b; d] else Err shape_error
  | _ => Err shape_error
  end.

Definition eqb_shp (a b : shp) : bool :=
  if list_eq_dec Z.eq_dec a b then true else false.

Definition on_tensor (f : shp -> result shp) (v : pyval shp)
  : result (pyval shp) :=
  match v with
  | Tensor s => s' <- f s ;; Ok (Tensor s')
  | Tuple _ _ => Err not_a_tensor
  end.

(** Modelled from the spec: a pre-activation block takes and returns a
    pair (output, accumulated residual) of equal extents; a post-activation
    block takes and returns a single tensor. *)
Definition shape_call (l : layer) (v : pyval shp) : result (pyval shp) :=
  match l with
  | Conv1d cin cout k => on_tensor (conv1d_shape cin cout k) v
  | BatchNorm1d nf => on_tensor (norm1d_shape nf true) v
  | InstanceNorm1d nf _ => on_tensor (norm1d_shape nf false) v
  | LeakyReLU _ | Dropout _ | Sigmoid | LogSoftmax _ => on_tensor (fun s => Ok s) v
  | BasicBlock1dWithNormPreactivation a _ =>
      match v with
      | Tuple (Tensor s) (Tensor r) =>
          if eqb_shp s r then
            s' <- block_shape a s ;; Ok (Tuple (Tensor s') (Tensor s'))
          else Err shape_error
      | _ => Err (TypeError "expected a pair of tensors")
      end
  | BasicBlock1dWithNorm a _ => on_tensor (block_shape a) v
  | GRU i h n bi _ =>
      match v with
      | Tensor s => gru_shape i h n bi s
      | Tuple _ _ => Err not_a_tensor
      end
  | MultiHeadContextualAttention d _ _ _ _ _
  | MultiHeadContextualAttentionV2 d _ _ _
  | MultiHeadContextualAttentionV3 d _ _ _
  | MultiHeadContextualAttentionV4 d _ _ _
  | MultiHeadContextualAttentionV5 d _ _ _ => on_tensor (pooling_shape d) v
  | Linear i o => on_tensor (linear_shape i o) v
  end.

(** [Tensor.permute] on a rank-3 tensor, for the one permutation used. *)
Definition shape_permute (s : shp) (dims : list Z) : result shp :=
  match s, dims with
  | [a; b; c], [0; 2; 1] => Ok [a; c; b]
  | _, _ => Err shape_error
  end.

(** Iterating over a tensor yields its slices along the first axis. *)
Definition shape_iterate (s : shp) : result (list shp) :=
  match s with
  | [] => Err (TypeError "iteration over a 0-d tensor")
  | n :: r => Ok (repeat r (Z.to_nat n))
  end.

Definition shapes : Collaborators shp :=
  mkCollaborators shp shape_construct shape_call shape_permute shape_iterate.

(** The same, with constructors that never raise. *)
Definition permissive : Collaborators shp :=
  mkCollaborators shp (fun _ => Ok tt) shape_call shape_permute shape_iterate.

(** A configuration with the defaults of the signature but for the
    options under study. *)
Definition config_with (down_sample pos_skip : string)
  (norm_before_act : option bool) (use_pre_activation_design : bool)
  (attention_type : string) : config :=
  mkConfig false true 12 9
           (2 # 10) (2 # 10) (2 # 10) (2 # 10)
           3 3 24 48 2 2
           down_sample true pos_skip "BN" "all" norm_before_act
           use_pre_activation_design true 16
           12 (2 # 10) 3 false None None attention_type.

(** The configuration of the script at the end of final_model.py. *)
Definition main_config : config :=
  mkConfig false true 12 9
           (2 # 10) (2 # 10) (2 # 10) (2 # 10)
           3 3 24 48 2 2
           "conv" true "all" "BN" "all" (Some true)
           true true 16
           32 (3 # 10) 16 false None None "v2".

Definition main_input : pyval shp := Tensor [2; 12; 72000].

(** Does [sub] occur in [s]? *)
Fixpoint contains (sub s : string) : bool :=
  String.prefix sub s
  || match s with
     | EmptyString => false
     | String _ r => contains sub r
     end.

(** The message carried by an exception, if it has one. *)
Definition message (e : pyerror) : string :=
  match e with
  | AssertionError m | ValueError m | AttributeError m | TypeError m
  | IndexError m | RuntimeError m => m
  | UnboundLocalError n => n
  | ZeroDivisionError => ""
  end.

End Shapes.

(** * Properties *)

(** ** Facts on the tensor operations *)

Module TorchFacts.
Import Torch.

Open Scope nat_scope.

Lemma tensor_eq_refl (t : tensor) : t =t= t.
Proof. split; [reflexivity | intros; reflexivity]. Qed.

Lemma tensor_eq_sym (t u : tensor) : t =t= u -> u =t= t.
Proof.
  intros [Hs Hg]. split; [now symmetry |].
  intros idx Hi. symmetry. apply Hg. now rewrite Hs.
Qed.

Lemma tensor_eq_trans (t u v : tensor) : t =t= u -> u =t= v -> t =t= v.
Proof.
  intros [Hs Hg] [Hs' Hg']. split; [congruence |].
  intros idx Hi. rewrite Hg by assumption. apply Hg'. now rewrite <- Hs.
Qed.

Lemma in_bounds3 (idx : list nat) (a b c : nat) :
  in_bounds idx [a; b; c] ->
  exists i j k, idx = [i; j; k] /\ i < a /\ j < b /\ k < c.
Proof.
  intros H. inversion H as [| i ? r1 ? Hi H1]; subst.
  inversion H1 as [| j ? r2 ? Hj H2]; subst.
  inversion H2 as [| k ? r3 ? Hk H3]; subst.
  inversion H3; subst. now exists i, j, k.
Qed.

Lemma sum_n_ext (n : nat) (f g : nat -> R) :
  (forall i, i < n -> f i = g i) -> sum_n n f = sum_n n g.
Proof.
  induction n as [| n IH]; intros H; simpl; [reflexivity |].
  rewrite IH by (intros; apply H; lia). now rewrite H by lia.
Qed.


Lemma sum_n_nonneg (n : nat) (f : nat -> R) :
  (forall i, i < n -> (0 <= f i)%R) -> (0 <= sum_n n f)%R.
Proof.
  induction n as [| n IH]; intros H; simpl; [apply Rle_refl |].
  apply Rplus_le_le_0_compat; [apply IH; intros; apply H; lia | apply H; lia].
Qed.

Lemma sum_n_pos (n : nat) (f : nat -> R) :
  0 < n -> (forall i, i < n -> (0 < f i)%R) -> (0 < sum_n n f)%R.
Proof.
  intros Hn H. destruct n as [| n]; [lia |]. simpl.
  apply Rplus_le_lt_0_compat; [| apply H; lia].
  apply sum_n_nonneg. intros i Hi. apply Rlt_le, H. lia.
Qed.

(** *** Index updates *)

Lemma upd_length (n : nat) (f : nat -> nat) (l : list nat) :
  List.length (upd n f l) = List.length l.
Proof.
  revert n; induction l as [| x r IH]; intros [| n]; simpl; auto.
Qed.

Lemma nth_upd_same (n : nat) (f : nat -> nat) (l : list nat) :
  n < List.length l -> nth n (upd n f l) 0 = f (nth n l 0).
Proof.
  revert n; induction l as [| x r IH]; intros [| n] H; simpl in *;
    try lia; auto. apply IH. lia.
Qed.

Lemma upd_upd (n : nat) (f g : nat -> nat) (l : list nat) :
  upd n f (upd n g l) = upd n (fun x => f (g x)) l.
Proof.
  revert n; induction l as [| x r IH]; intros [| n]; simpl; auto.
  now rewrite IH.
Qed.

Lemma upd_ext (n : nat) (f g : nat -> nat) (l : list nat) :
  f (nth n l 0) = g (nth n l 0) -> upd n f l = upd n g l.
Proof.
  revert n; induction l as [| x r IH]; intros [| n] H; simpl in *; auto.
  - now rewrite H.
  - now rewrite (IH n H).
Qed.

Lemma upd_id (n : nat) (f : nat -> nat) (l : list nat) :
  f (nth n l 0) = nth n l 0 -> upd n f l = l.
Proof.
  revert n; induction l as [| x r IH]; intros [| n] H; simpl in *; auto.
  - now rewrite H.
  - now rewrite (IH n H).
Qed.

Lemma list_nat_eqb_refl (l : list nat) : list_nat_eqb l l = true.
Proof.
  induction l as [| x r IH]; simpl; [reflexivity |].
  now rewrite Nat.eqb_refl, IH.
Qed.

(** *** [chunk] on an extent that the number of chunks divides *)

Lemma ceil_div_exact (h d : nat) : 0 < h -> (h * d + h - 1) / h = d.
Proof.
  intros Hh. symmetry.
  apply (Nat.div_unique (h * d + h - 1) h d (h - 1)); lia.
Qed.

Lemma chunk_exact (t : tensor) (h d ax : nat) (dim : Z) :
  0 < h ->
  axis_of (rank t) dim = Some ax ->
  size_at ax t = h * d ->
  chunk t h dim = Ok (map (fun i => narrow t ax (i * d) d) (seq 0 h)).
Proof.
  intros Hh Hax Hsz. unfold chunk.
  destruct (h =? 0) eqn:E; [apply Nat.eqb_eq in E; lia | clear E].
  rewrite Hax, Hsz. cbv zeta. rewrite (ceil_div_exact h d Hh).
  destruct (d =? 0) eqn:Ed.
  - apply Nat.eqb_eq in Ed. subst d. f_equal. apply map_ext.
    intros i. now rewrite Nat.mul_0_r.
  - apply Nat.eqb_neq in Ed.
    assert (Hn : (h * d + d - 1) / d = h).
    { rewrite (Nat.mul_comm h d). apply ceil_div_exact. lia. }
    rewrite Hn. replace (Nat.max h 1) with h by lia.
    f_equal. apply map_ext_in. intros i Hi. apply in_seq in Hi.
    destruct (i =? h - 1) eqn:Ei; [| reflexivity].
    apply Nat.eqb_eq in Ei. subst i. f_equal. nia.
Qed.

(** *** [cat] of pieces that all have the same extents *)

Lemma cat_get_uniform (ax s : nat) (ts : list tensor) (dflt : tensor) :
  0 < s ->
  (forall t, In t ts -> size_at ax t = s) ->
  forall idx,
    ax < List.length idx ->
    nth ax idx 0 < List.length ts * s ->
    cat_get ax ts idx
    = get (nth (nth ax idx 0 / s) ts dflt) (upd ax (fun p => p mod s) idx).
Proof.
  intros Hs. induction ts as [| t r IH]; intros Hall idx Hax Hp.
  - simpl in Hp. lia.
  - simpl cat_get. rewrite (Hall t (or_introl eq_refl)).
    destruct (nth ax idx 0 <? s) eqn:E.
    + apply Nat.ltb_lt in E. rewrite (Nat.div_small _ _ E). simpl nth.
      f_equal. symmetry. apply upd_id. now apply Nat.mod_small.
    + apply Nat.ltb_ge in E.
      rewrite IH.
      * rewrite nth_upd_same by assumption. rewrite upd_upd.
        set (p := nth ax idx 0) in *.
        assert (Hd : p / s = S ((p - s) / s)).
        { replace p with ((p - s) + 1 * s) at 1 by lia.
          rewrite Nat.div_add by lia. lia. }
        rewrite Hd. simpl nth. f_equal. apply upd_ext. fold p.
        replace p with ((p - s) + 1 * s) at 2 by lia.
        rewrite Nat.Div0.mod_add. reflexivity.
      * intros t' Ht'. apply Hall. now right.
      * now rewrite upd_length.
      * rewrite nth_upd_same by assumption. simpl in Hp. lia.
Qed.

Lemma list_sum_const (s : nat) (l : list nat) :
  (forall x, In x l -> x = s) -> list_sum l = List.length l * s.
Proof.
  induction l as [| x r IH]; intros H; simpl; [reflexivity |].
  rewrite IH by (intros; apply H; now right).
  rewrite (H x (or_introl eq_refl)). reflexivity.
Qed.

Lemma cat_uniform (ts : list tensor) (sh : list nat)
  (ax : nat) (dim : Z) :
  ts <> [] ->
  (forall t, In t ts -> shape t = sh) ->
  axis_of (List.length sh) dim = Some ax ->
  cat ts dim
  = Ok (mkT (upd ax (fun _ => List.length ts * nth ax sh 0) sh)
            (cat_get ax ts)).
Proof.
  intros Hne Hall Hax. destruct ts as [| t r]; [congruence |].
  unfold cat. unfold rank. rewrite (Hall t (or_introl eq_refl)), Hax.
  assert (Hc : forallb (fun u => cat_compatible ax sh (shape u)) r = true).
  { apply forallb_forall. intros u Hu. rewrite (Hall u (or_intror Hu)).
    apply list_nat_eqb_refl. }
  rewrite Hc. do 2 f_equal.
  apply upd_ext.
  rewrite (list_sum_const (nth ax sh 0)).
  - now rewrite length_map.
  - intros x Hx. apply in_map_iff in Hx. destruct Hx as [u [<- Hu]].
    unfold size_at. now rewrite (Hall u Hu).
Qed.

End TorchFacts.

(** ** Facts on the attention block *)

Module MHAFacts.
Import Torch TorchFacts MHA.

Open Scope nat_scope.

Lemma rank3 (t : tensor) (a b c : nat) : shape t = [a; b; c] -> rank t = 3.
Proof. unfold rank. now intros ->. Qed.

Lemma nth_map_seq (A : Type) (f : nat -> A) (h i : nat) (dflt : A) :
  i < h -> nth i (map f (seq 0 h)) dflt = f i.
Proof.
  intros Hi. rewrite (nth_indep _ dflt (f 0)) by now rewrite length_map, length_seq.
  rewrite map_nth. now rewrite seq_nth.
Qed.

(** Folding the heads into the batch axis: entry [p] of the batch axis is
    entry [p mod b] of head [p / b]. *)
Lemma heads_to_batch_spec (h b l d : nat) (x : tensor) :
  0 < h ->
  shape x = [b; l; h * d] ->
  exists y,
    heads_to_batch h x = Ok y /\
    shape y = [h * b; l; d] /\
    forall p i j, p < h * b ->
      get y [p; i; j] = get x [p mod b; i; (p / b) * d + j].
Proof.
  intros Hh Hx. unfold heads_to_batch.
  rewrite (chunk_exact x h d 2 (-1)%Z Hh).
  2: { now rewrite (rank3 _ _ _ _ Hx). }
  2: { unfold size_at. now rewrite Hx. }
  cbn [rbind].
  set (ts := map (fun i => narrow x 2 (i * d) d) (seq 0 h)).
  assert (Hts : forall t, In t ts -> shape t = [b; l; d]).
  { intros t Ht. apply in_map_iff in Ht. destruct Ht as [i [<- _]].
    cbn [narrow shape]. now rewrite Hx. }
  assert (Hlen : List.length ts = h) by (unfold ts; now rewrite length_map, length_seq).
  rewrite (cat_uniform ts [b; l; d] 0 0%Z); try assumption; try reflexivity.
  2: { intros E. rewrite E in Hlen. simpl in Hlen. lia. }
  eexists. split; [reflexivity |]. split.
  - cbn [shape upd nth]. now rewrite Hlen.
  - intros p i j Hp. cbn [get].
    assert (Hb : 0 < b) by (destruct b; [lia | lia]).
    rewrite (cat_get_uniform 0 b ts x Hb).
    + cbn [nth upd]. unfold ts. rewrite nth_map_seq.
      * reflexivity.
      * apply Nat.Div0.div_lt_upper_bound. lia.
    + intros t Ht. unfold size_at. now rewrite (Hts t Ht).
    + simpl. lia.
    + cbn [nth]. rewrite Hlen. lia.
Qed.

(** Unfolding the heads from the batch axis onto the feature axis: feature
    [q] is feature [q mod d] of head [q / d]. *)
Lemma batch_to_heads_spec (h b l d : nat) (y : tensor) :
  0 < h ->
  shape y = [h * b; l; d] ->
  exists z,
    batch_to_heads h y = Ok z /\
    shape z = [b; l; h * d] /\
    forall n i q, q < h * d ->
      get z [n; i; q] = get y [(q / d) * b + n; i; q mod d].
Proof.
  intros Hh Hy. unfold batch_to_heads.
  rewrite (chunk_exact y h b 0 0%Z Hh).
  2: { now rewrite (rank3 _ _ _ _ Hy). }
  2: { unfold size_at. now rewrite Hy. }
  cbn [rbind].
  set (ts := map (fun i => narrow y 0 (i * b) b) (seq 0 h)).
  assert (Hts : forall t, In t ts -> shape t = [b; l; d]).
  { intros t Ht. apply in_map_iff in Ht. destruct Ht as [i [<- _]].
    cbn [narrow shape]. now rewrite Hy. }
  assert (Hlen : List.length ts = h) by (unfold ts; now rewrite length_map, length_seq).
  rewrite (cat_uniform ts [b; l; d] 2 (-1)%Z); try assumption; try reflexivity.
  2: { intros E. rewrite E in Hlen. simpl in Hlen. lia. }
  eexists. split; [reflexivity |]. split.
  - cbn [shape upd nth]. now rewrite Hlen.
  - intros n i q Hq. cbn [get].
    assert (Hd : 0 < d) by (destruct d; [lia | lia]).
    rewrite (cat_get_uniform 2 d ts y Hd).
    + cbn [nth upd]. unfold ts. rewrite nth_map_seq.
      * reflexivity.
      * apply Nat.Div0.div_lt_upper_bound. lia.
    + intros t Ht. unfold size_at. now rewrite (Hts t Ht).
    + simpl. lia.
    + cbn [nth]. rewrite Hlen. lia.
Qed.

(** C3. Head-split then head-concatenate gives the tensor back: for [t] of
    extents (batch, L, h*d) and [h > 0], [torch.cat(t.chunk(h, dim=-1), dim=0)]
    succeeds with extents (h*batch, L, d), and
    [torch.cat(_.chunk(h, dim=0), dim=-1)] of that succeeds with extents
    (batch, L, h*d) and the entries of [t]. *)
Theorem heads_roundtrip (h b l d : nat) (t : tensor) :
  0 < h ->
  shape t = [b; l; h * d] ->
  exists s back,
    heads_to_batch h t = Ok s /\
    shape s = [h * b; l; d] /\
    batch_to_heads h s = Ok back /\
    shape back = [b; l; h * d] /\
    back =t= t.
Proof.
  intros Hh Ht.
  destruct (heads_to_batch_spec _ _ _ _ _ Hh Ht) as [s [Hs [Hss Hsg]]].
  destruct (batch_to_heads_spec _ _ _ _ _ Hh Hss) as [z [Hz [Hzs Hzg]]].
  exists s, z. repeat split; try assumption.
  - congruence.
  - intros idx Hi. rewrite Hzs in Hi.
    destruct (in_bounds3 _ _ _ _ Hi) as [n [i [q [-> [Hn [_ Hq]]]]]].
    rewrite (Hzg n i q Hq).
    assert (Hd : 0 < d) by (destruct d; [lia | lia]).
    assert (Hqd : q / d < h) by (apply Nat.Div0.div_lt_upper_bound; lia).
    rewrite Hsg by nia.
    rewrite (Nat.add_comm (q / d * b) n).
    rewrite Nat.Div0.mod_add, Nat.div_add by lia.
    rewrite (Nat.mod_small n b Hn), (Nat.div_small n b Hn).
    cbn [Nat.add]. do 4 f_equal.
    rewrite (Nat.mul_comm (q / d) d). symmetry. apply Nat.div_mod_eq.
Qed.

(** *** The stages of [forward] on well-sized inputs *)

Lemma transpose12_spec (K : tensor) (N Lk dk : nat) :
  shape K = [N; Lk; dk] ->
  transpose K 1 2
  = Ok (mkT [N; dk; Lk] (fun idx => get K (swap 1 2 idx))).
Proof.
  intros HK. unfold transpose. rewrite (rank3 _ _ _ _ HK). cbn [axis_of].
  cbn. rewrite HK. reflexivity.
Qed.

Lemma bmm_spec (a b : tensor) (n l m p : nat) :
  shape a = [n; l; m] ->
  shape b = [n; m; p] ->
  bmm a b
  = Ok (mkT [n; l; p]
            (fun idx =>
               match idx with
               | [bi; i; j] =>
                   sum_n m (fun x => (get a [bi; i; x] * get b [bi; x; j])%R)
               | _ => 0%R
               end)).
Proof.
  intros Ha Hb. unfold bmm. rewrite Ha, Hb.
  now rewrite !Nat.eqb_refl.
Qed.

Lemma softmax_last_spec (s : tensor) (n l m : nat) :
  shape s = [n; l; m] ->
  softmax s (-1)
  = Ok (mkT [n; l; m]
            (fun idx =>
               (exp (get s idx) /
                sum_n m (fun j => exp (get s (upd 2 (fun _ => j) idx))))%R)).
Proof.
  intros Hs. unfold softmax. rewrite (rank3 _ _ _ _ Hs). cbn [axis_of].
  cbn. unfold size_at. rewrite Hs. reflexivity.
Qed.

Lemma Linear_forward_spec (L : Linear) (x : tensor) (a b c : nat) :
  shape x = [a; b; c] ->
  in_features L = c ->
  exists y, Linear_forward L x = Ok y /\ shape y = [a; b; out_features L].
Proof.
  intros Hx Hin. unfold Linear_forward. rewrite (rank3 _ _ _ _ Hx).
  unfold size_at. rewrite Hx, Hin. cbn [nth]. rewrite Nat.eqb_refl.
  eexists. split; [reflexivity |]. reflexivity.
Qed.

Lemma W_k_forward_spec (P : key_projection) (x : tensor) (a b c : nat) :
  shape x = [a; b; c] ->
  in_features (key_linear P) = c ->
  exists y, W_k_forward P x = Ok y
            /\ shape y = [a; b; out_features (key_linear P)].
Proof.
  intros Hx Hin. destruct P as [L | L]; cbn [key_linear] in *.
  - now apply (Linear_forward_spec L x a b c).
  - destruct (Linear_forward_spec L _ _ _ _ Hx Hin) as [y [Hy Hs]].
    unfold W_k_forward. rewrite Hy. cbn [rbind].
    eexists. split; [reflexivity | exact Hs].
Qed.

(** Lines 107-109 succeed and leave the module untouched. *)
Lemma project_heads_spec (self : MultiHeadAttention)
  (d_model k q v b lq lk lv : nat) (query key value : tensor) :
  projections_sized d_model k q v self ->
  0 < _h self ->
  shape query = [b; lq; d_model] ->
  shape key = [b; lk; d_model] ->
  shape value = [b; lv; d_model] ->
  exists Q K V,
    project_heads query key value self = (Ok (Q, K, V), self) /\
    shape Q = [_h self * b; lq; q] /\
    shape K = [_h self * b; lk; k] /\
    shape V = [_h self * b; lv; v].
Proof.
  intros (_ & Hqi & Hqo & Hki & Hko & Hvi & Hvo & _) Hh Hq Hk Hv.
  destruct (Linear_forward_spec (_W_q self) _ _ _ _ Hq Hqi) as [q1 [Eq1 Sq1]].
  destruct (W_k_forward_spec (_W_k self) _ _ _ _ Hk Hki) as [k1 [Ek1 Sk1]].
  destruct (Linear_forward_spec (_W_v self) _ _ _ _ Hv Hvi) as [v1 [Ev1 Sv1]].
  rewrite Hqo, Nat.mul_comm in Sq1.
  rewrite Hko, Nat.mul_comm in Sk1.
  rewrite Hvo, Nat.mul_comm in Sv1.
  destruct (heads_to_batch_spec _ _ _ _ _ Hh Sq1) as [Q [EQ [SQ _]]].
  destruct (heads_to_batch_spec _ _ _ _ _ Hh Sk1) as [K [EK [SK _]]].
  destruct (heads_to_batch_spec _ _ _ _ _ Hh Sv1) as [V [EV [SV _]]].
  exists Q, K, V. repeat split; try assumption.
  unfold project_heads, mbind, get_self, lift, mret.
  rewrite Eq1, Ek1, Ev1. cbn [rbind]. rewrite EQ, EK, EV. reflexivity.
Qed.

Lemma scores_spec (self : MultiHeadAttention) (N Lq Lk dk : nat)
  (Q K : tensor) :
  shape Q = [N; Lq; dk] ->
  shape K = [N; Lk; dk] ->
  exists w,
    mbind (scaled_dot_product Q K) (fun _ => apply_softmax) self
    = (Ok tt, with_scores self w) /\
    w =t= weights_of self N Lq Lk dk Q K.
Proof.
  intros HQ HK.
  unfold scaled_dot_product, apply_softmax, mbind, get_self, lift,
    read_scores, set_scores.
  rewrite (transpose12_spec _ _ _ _ HK). cbn [rbind].
  rewrite (bmm_spec Q (mkT [N; dk; Lk] (fun idx => get K (swap 1 2 idx)))
             N Lq dk Lk HQ eq_refl).
  cbn [with_scores _scores].
  erewrite (softmax_last_spec _ N Lq Lk) by reflexivity.
  eexists. split; [reflexivity |].
  split; [reflexivity |].
  intros idx Hi. cbn [shape] in Hi.
  destruct (in_bounds3 _ _ _ _ Hi) as [n [i [l [-> _]]]].
  reflexivity.
Qed.

Lemma with_scores_twice (self : MultiHeadAttention) (s s' : tensor) :
  with_scores (with_scores self s) s' = with_scores self s'.
Proof. reflexivity. Qed.

Lemma after_dropout_shape (self : MultiHeadAttention)
  (keep : list nat -> bool) (w : tensor) :
  shape (after_dropout self keep w) = shape w.
Proof.
  unfold after_dropout, Dropout_forward.
  destruct (_dropout self); [destruct (training self) |]; reflexivity.
Qed.

Lemma apply_dropout_spec (self : MultiHeadAttention)
  (keep : list nat -> bool) (w : tensor) :
  apply_dropout keep (with_scores self w)
  = (Ok tt, with_scores self (after_dropout self keep w)).
Proof.
  unfold apply_dropout, after_dropout, mbind, get_self, read_scores,
    set_scores, mret.
  cbn [with_scores _dropout _scores training].
  destruct (_dropout self); reflexivity.
Qed.

(** Lines 112-120 on head-folded inputs. *)
Lemma attention_core_spec (self : MultiHeadAttention)
  (N Lq Lk dk dv : nat) (Q K V : tensor) (keep : list nat -> bool) :
  shape Q = [N; Lq; dk] ->
  shape K = [N; Lk; dk] ->
  shape V = [N; Lk; dv] ->
  exists w out,
    mbind (scaled_dot_product Q K) (fun _ => apply_softmax) self
    = (Ok tt, with_scores self w) /\
    w =t= weights_of self N Lq Lk dk Q K /\
    attention_core Q K V keep self
    = (Ok out, with_scores self (after_dropout self keep w)) /\
    shape out = [N; Lq; dv] /\
    forall n i j,
      get out [n; i; j]
      = sum_n Lk (fun l => (get (after_dropout self keep w) [n; i; l]
                            * get V [n; l; j])%R).
Proof.
  intros HQ HK HV.
  destruct (scores_spec self N Lq Lk dk Q K HQ HK) as [w [Hw Hweq]].
  assert (Hsh : shape (after_dropout self keep w) = [N; Lq; Lk]).
  { rewrite after_dropout_shape. destruct Hweq as [-> _]. reflexivity. }
  exists w. eexists. split; [exact Hw |]. split; [exact Hweq |].
  unfold attention_core.
  unfold mbind at 1 2. unfold mbind in Hw.
  destruct (scaled_dot_product Q K self) as [[[] | e] s1]; [| discriminate].
  rewrite Hw.
  unfold mbind at 1. rewrite apply_dropout_spec.
  unfold weighted_values, mbind, read_scores, lift.
  cbn [with_scores _scores].
  rewrite (bmm_spec _ V N Lq Lk dv Hsh HV).
  split; [reflexivity |]. split; reflexivity.
Qed.

(** [forward] up to line 115. *)
Lemma forward_until_softmax_spec (self : MultiHeadAttention)
  (d_model k v b lq lk lv : nat) (query key value : tensor) :
  projections_sized d_model k k v self ->
  0 < _h self ->
  shape query = [b; lq; d_model] ->
  shape key = [b; lk; d_model] ->
  shape value = [b; lv; d_model] ->
  exists Q K V w,
    project_heads query key value self = (Ok (Q, K, V), self) /\
    shape Q = [_h self * b; lq; k] /\
    shape K = [_h self * b; lk; k] /\
    shape V = [_h self * b; lv; v] /\
    w =t= weights_of self (_h self * b) lq lk k Q K /\
    forward_until_softmax query key value self
    = (Ok V, with_scores self w).
Proof.
  intros Hwf Hh Hq Hk Hv.
  destruct (project_heads_spec self d_model k k v b lq lk lv query key value
              Hwf Hh Hq Hk Hv) as [Q [K [V [Hp [SQ [SK SV]]]]]].
  destruct (scores_spec self _ _ _ _ Q K SQ SK) as [w [Hw Hweq]].
  exists Q, K, V, w. repeat split; try assumption; try apply Hweq.
  unfold forward_until_softmax. unfold mbind at 1. rewrite Hp.
  unfold mbind at 1 2. unfold mbind in Hw.
  destruct (scaled_dot_product Q K self) as [[[] | e] s1]; [| discriminate].
  rewrite Hw. reflexivity.
Qed.

(** The whole of [forward] on well-sized inputs. *)
Lemma forward_spec (self : MultiHeadAttention)
  (d_model k v b lq lk : nat) (query key value : tensor)
  (mask : option string) (keep : list nat -> bool) :
  projections_sized d_model k k v self ->
  0 < _h self ->
  shape query = [b; lq; d_model] ->
  shape key = [b; lk; d_model] ->
  shape value = [b; lk; d_model] ->
  exists Q K V w attention_heads self_attention,
    forward_until_softmax query key value self
    = (Ok V, with_scores self w) /\
    w =t= weights_of self (_h self * b) lq lk k Q K /\
    shape attention_heads = [b; lq; _h self * v] /\
    Linear_forward (_W_o self) attention_heads = Ok self_attention /\
    shape self_attention = [b; lq; d_model] /\
    forward query key value mask keep self
    = (Ok (squeeze self_attention),
       with_scores self (after_dropout self keep w)).
Proof.
  intros Hwf Hh Hq Hk Hv.
  destruct (project_heads_spec self d_model k k v b lq lk lk query key value
              Hwf Hh Hq Hk Hv) as [Q [K [V [Hp [SQ [SK SV]]]]]].
  destruct (attention_core_spec self _ _ _ _ _ Q K V keep SQ SK SV)
    as [w [att [Hw [Hweq [Hcore [Satt _]]]]]].
  destruct (batch_to_heads_spec _ _ _ _ _ Hh Satt) as [hd [Hhd [Shd _]]].
  destruct Hwf as (_ & _ & _ & _ & _ & _ & _ & Hoi & Hoo).
  destruct (Linear_forward_spec (_W_o self) hd _ _ _ Shd Hoi) as [o [Ho So]].
  rewrite Hoo in So.
  exists Q, K, V, w, hd, o. repeat split; try assumption; try apply Hweq.
  - unfold forward_until_softmax. unfold mbind at 1. rewrite Hp.
    unfold mbind at 1 2. unfold mbind in Hw.
    destruct (scaled_dot_product Q K self) as [[[] | e] s1]; [| discriminate].
    rewrite Hw. reflexivity.
  - unfold forward. unfold mbind at 1. rewrite Hp.
    unfold mbind at 1. rewrite Hcore.
    unfold mbind, get_self, lift, mret. cbn [with_scores _h _W_o].
    rewrite Hhd, Ho. reflexivity.
Qed.

(** [forward] never looks at [mask]. *)
Lemma forward_ignores_mask (self : MultiHeadAttention)
  (query key value : tensor) (mask : option string)
  (keep : list nat -> bool) :
  forward query key value mask keep self
  = forward query key value None keep self.
Proof. reflexivity. Qed.

Lemma init_sized (d_model k q v h : nat) (dropout : option R)
  (discard : bool) (pq pk pv po : params) (self : MultiHeadAttention) :
  __init__ d_model k q v h dropout discard pq pk pv po = Ok self ->
  projections_sized d_model k q v self /\ _h self = h
  /\ _scores self = None /\ training self = true.
Proof.
  unfold __init__. intros H.
  destruct (match dropout with
            | None => Ok None
            | Some p => rbind (new_Dropout p) (fun d => Ok (Some d))
            end) as [dr | e]; cbn [rbind] in H; [| discriminate].
  injection H as <-. cbn.
  destruct discard; cbn; repeat split; reflexivity.
Qed.

(** *** Softmax weights *)

Lemma softmax_weight_pos (dk dkey Lk : nat) (Q K : tensor) (n i l : nat) :
  0 < Lk -> (0 < softmax_weight dk dkey Lk Q K n i l)%R.
Proof.
  intros HL. unfold softmax_weight. apply Rdiv_lt_0_compat.
  - apply exp_pos.
  - apply sum_n_pos; [assumption | intros; apply exp_pos].
Qed.


Lemma weights_of_get (self : MultiHeadAttention) (N Lq Lk dk : nat)
  (Q K w : tensor) (n i l : nat) :
  w =t= weights_of self N Lq Lk dk Q K ->
  n < N -> i < Lq -> l < Lk ->
  get w [n; i; l] = softmax_weight dk (_k self) Lk Q K n i l.
Proof.
  intros [Hs Hg] Hn Hi Hl. rewrite Hg; [reflexivity |].
  rewrite Hs. cbn [weights_of shape]. repeat constructor; assumption.
Qed.

Lemma after_dropout_disabled (self : MultiHeadAttention)
  (keep : list nat -> bool) (w : tensor) :
  _dropout self = None \/ training self = false ->
  after_dropout self keep w = w.
Proof.
  unfold after_dropout, Dropout_forward. intros [-> | ->]; [reflexivity |].
  now destruct (_dropout self).
Qed.

(** C2. With dropout disabled, the attention core applied to queries
    (N, Lq, dk), keys (N, Lk, dk) and values (N, Lk, dv), where dk is the
    configured key dimension, returns a tensor of extents (N, Lq, dv) whose
    entries are those of softmax(Q K^T / sqrt(dk)) V, the softmax running
    over the key axis of each query row. *)
Theorem attention_core_softmax_attention (self : MultiHeadAttention)
  (N Lq Lk dk dv : nat) (Q K V : tensor) (keep : list nat -> bool) :
  shape Q = [N; Lq; dk] ->
  shape K = [N; Lk; dk] ->
  shape V = [N; Lk; dv] ->
  _k self = dk ->
  _dropout self = None \/ training self = false ->
  exists out,
    fst (attention_core Q K V keep self) = Ok out /\
    shape out = [N; Lq; dv] /\
    out =t= spec_attention N Lq Lk dk dv Q K V.
Proof.
  intros HQ HK HV Hk Hd.
  destruct (attention_core_spec self N Lq Lk dk dv Q K V keep HQ HK HV)
    as [w [out [_ [Hweq [Hcore [Hsh Hget]]]]]].
  exists out. rewrite Hcore. split; [reflexivity |]. split; [exact Hsh |].
  split; [exact Hsh |].
  intros idx Hi. rewrite Hsh in Hi.
  destruct (in_bounds3 _ _ _ _ Hi) as [n [i [j [-> [Hn [Hi' Hj]]]]]].
  rewrite Hget. cbn [spec_attention get].
  apply sum_n_ext. intros l Hl.
  rewrite (after_dropout_disabled self keep w Hd).
  rewrite (weights_of_get self N Lq Lk dk Q K w n i l Hweq Hn Hi' Hl).
  now rewrite Hk.
Qed.

(** *** What [forward] returns and leaves behind *)

Example sample_module_init :
  __init__ 2 1 1 1 2 None false Samples.zero_params Samples.zero_params
           Samples.zero_params Samples.zero_params
  = Ok (Samples.sample_module None).
Proof. reflexivity. Qed.

Example sample_module_init_dropout :
  __init__ 2 1 1 1 2 (Some (1 / 2)%R) false Samples.zero_params
           Samples.zero_params Samples.zero_params Samples.zero_params
  = Ok (Samples.sample_module (Some (1 / 2)%R)).
Proof.
  unfold __init__, new_Dropout.
  destruct (Rlt_dec (1 / 2) 0) as [H | _]; [lra |].
  destruct (Rlt_dec 1 (1 / 2)) as [H | _]; [lra |].
  reflexivity.
Qed.

Lemma sample_module_sized (dropout : option R) :
  projections_sized 2 1 1 1 (Samples.sample_module dropout).
Proof. repeat split. Qed.

(** C8 (as amended). On well-sized inputs [forward] returns the output of
    the final projection [W_o], of extents (batch, Lq, d_model), after
    [squeeze()]: every dimension of extent 1 is removed, whichever it is.
    For query length 1, batch size above 1 and d_model above 1 the result
    has extents (batch, d_model). *)
Theorem forward_returns_squeezed_projection (self : MultiHeadAttention)
  (d_model k v b lq lk : nat) (query key value : tensor)
  (mask : option string) (keep : list nat -> bool) :
  projections_sized d_model k k v self ->
  0 < _h self ->
  shape query = [b; lq; d_model] ->
  shape key = [b; lk; d_model] ->
  shape value = [b; lk; d_model] ->
  exists attention_heads self_attention,
    shape attention_heads = [b; lq; _h self * v] /\
    Linear_forward (_W_o self) attention_heads = Ok self_attention /\
    shape self_attention = [b; lq; d_model] /\
    fst (forward query key value mask keep self) = Ok (squeeze self_attention) /\
    shape (squeeze self_attention)
    = filter (fun d => negb (d =? 1)) [b; lq; d_model] /\
    (lq = 1 -> 1 < b -> 1 < d_model ->
     shape (squeeze self_attention) = [b; d_model]).
Proof.
  intros Hwf Hh Hq Hk Hv.
  destruct (forward_spec self d_model k v b lq lk query key value mask keep
              Hwf Hh Hq Hk Hv)
    as [Q [K [V [w [hd [o [_ [_ [Shd [Ho [So Hf]]]]]]]]]]].
  exists hd, o. rewrite Hf. repeat split; try assumption.
  - cbn [squeeze shape]. now rewrite So.
  - intros -> Hb Hd. cbn [squeeze shape]. rewrite So. cbn [filter].
    destruct (b =? 1) eqn:Eb; [apply Nat.eqb_eq in Eb; lia |].
    destruct (d_model =? 1) eqn:Ed; [apply Nat.eqb_eq in Ed; lia |].
    reflexivity.
Qed.

(** C8, as stated, fails: with batch size 1 and query length 1 the
    projection output has extents (1, 1, 2) and [forward] returns extents
    (2): the batch dimension is removed as well. *)
Lemma forward_squeeze_removes_batch_axis :
  exists attention_heads self_attention out,
    Linear_forward (_W_o (Samples.sample_module None)) attention_heads
    = Ok self_attention /\
    shape self_attention = [1; 1; 2] /\
    fst (forward (Samples.ramp [1; 1; 2]) (Samples.ramp [1; 3; 2])
                 (Samples.ramp [1; 3; 2]) None Samples.keep_all
                 (Samples.sample_module None)) = Ok out /\
    shape out = [2] /\
    shape out <> [1; 2].
Proof.
  destruct (forward_spec (Samples.sample_module None) 2 1 1 1 1 3
              (Samples.ramp [1; 1; 2]) (Samples.ramp [1; 3; 2])
              (Samples.ramp [1; 3; 2]) None Samples.keep_all
              (sample_module_sized None) Nat.lt_0_2 eq_refl eq_refl eq_refl)
    as [Q [K [V [w [hd [o [_ [_ [_ [Ho [So Hf]]]]]]]]]]].
  exists hd, o, (squeeze o). rewrite Hf.
  repeat split; try assumption.
  - cbn [squeeze shape]. now rewrite So.
  - cbn [squeeze shape]. rewrite So. discriminate.
Qed.



(** C5. [forward] is given [mask='subsequent'] on two queries and two
    keys: the call is the same as without mask, and the weight of key 1
    for query 0, a subsequent position, is positive in [self._scores]. *)
Theorem forward_subsequent_mask_unapplied :
  forward (Samples.ramp [1; 2; 2]) (Samples.ramp [1; 2; 2])
          (Samples.ramp [1; 2; 2]) (Some "subsequent"%string)
          Samples.keep_all (Samples.sample_module None)
  = forward (Samples.ramp [1; 2; 2]) (Samples.ramp [1; 2; 2])
            (Samples.ramp [1; 2; 2]) None
            Samples.keep_all (Samples.sample_module None) /\
  exists out sc,
    fst (forward (Samples.ramp [1; 2; 2]) (Samples.ramp [1; 2; 2])
                 (Samples.ramp [1; 2; 2]) (Some "subsequent"%string)
                 Samples.keep_all (Samples.sample_module None)) = Ok out /\
    _scores (snd (forward (Samples.ramp [1; 2; 2]) (Samples.ramp [1; 2; 2])
                          (Samples.ramp [1; 2; 2]) (Some "subsequent"%string)
                          Samples.keep_all (Samples.sample_module None)))
    = Some sc /\
    (0 < get sc [0%nat; 0%nat; 1%nat])%R.
Proof.
  split; [apply forward_ignores_mask |].
  destruct (forward_spec (Samples.sample_module None) 2 1 1 1 2 2
              (Samples.ramp [1; 2; 2]) (Samples.ramp [1; 2; 2])
              (Samples.ramp [1; 2; 2]) (Some "subsequent"%string)
              Samples.keep_all
              (sample_module_sized _) Nat.lt_0_2 eq_refl eq_refl eq_refl)
    as [Q [K [V [w [hd [o [_ [Hweq [_ [_ [_ Hf]]]]]]]]]]].
  eexists. exists w. rewrite Hf.
  split; [reflexivity |]. split; [reflexivity |].
  rewrite (weights_of_get _ _ _ _ _ Q K w 0 0 1 Hweq); cbn; try lia.
  apply softmax_weight_pos. lia.
Qed.

(** *** Instances on the sample module *)

Lemma heads_roundtrip_witness :
  0 < 2 /\
  shape (Samples.ramp [2; 3; 4]) = [2; 3; 2 * 2] /\
  exists s back,
    heads_to_batch 2 (Samples.ramp [2; 3; 4]) = Ok s /\
    shape s = [2 * 2; 3; 2] /\
    batch_to_heads 2 s = Ok back /\
    shape back = [2; 3; 2 * 2] /\
    back =t= Samples.ramp [2; 3; 4].
Proof.
  split; [exact Nat.lt_0_2 |]. split; [reflexivity |].
  exact (heads_roundtrip 2 2 3 2 (Samples.ramp [2; 3; 4]) Nat.lt_0_2 eq_refl).
Defined.

Lemma attention_core_softmax_attention_witness :
  exists out,
    fst (attention_core (Samples.ramp [2; 1; 1]) (Samples.ramp [2; 3; 1])
                        (Samples.ramp [2; 3; 1]) Samples.keep_all
                        (Samples.sample_module None)) = Ok out /\
    shape out = [2; 1; 1] /\
    out =t= spec_attention 2 1 3 1 1 (Samples.ramp [2; 1; 1])
                           (Samples.ramp [2; 3; 1]) (Samples.ramp [2; 3; 1]).
Proof.
  exact (attention_core_softmax_attention (Samples.sample_module None)
           2 1 3 1 1 (Samples.ramp [2; 1; 1]) (Samples.ramp [2; 3; 1])
           (Samples.ramp [2; 3; 1]) Samples.keep_all
           eq_refl eq_refl eq_refl eq_refl (or_introl eq_refl)).
Defined.

Lemma forward_returns_squeezed_projection_witness :
  exists attention_heads self_attention,
    shape attention_heads = [3; 1; 2 * 1] /\
    Linear_forward (_W_o (Samples.sample_module None)) attention_heads
    = Ok self_attention /\
    shape self_attention = [3; 1; 2] /\
    fst (forward (Samples.ramp [3; 1; 2]) (Samples.ramp [3; 4; 2])
                 (Samples.ramp [3; 4; 2]) None Samples.keep_all
                 (Samples.sample_module None))
    = Ok (squeeze self_attention) /\
    shape (squeeze self_attention)
    = filter (fun d => negb (d =? 1)) [3; 1; 2] /\
    (1 = 1 -> 1 < 3 -> 1 < 2 -> shape (squeeze self_attention) = [3; 2]).
Proof.
  exact (forward_returns_squeezed_projection (Samples.sample_module None)
           2 1 1 3 1 4 (Samples.ramp [3; 1; 2]) (Samples.ramp [3; 4; 2])
           (Samples.ramp [3; 4; 2]) None Samples.keep_all
           (sample_module_sized None) Nat.lt_0_2 eq_refl eq_refl eq_refl).
Defined.


Close Scope nat_scope.

End MHAFacts.

(** ** Facts on the model assembly *)

Module FinalFacts.
Import Final Shapes.

Open Scope string_scope.

(** One step through a chain of binds that is known to succeed. *)
Ltac step_bind H :=
  match type of H with
  | rbind ?r _ = Ok _ =>
      let E := fresh "E" in
      destruct r eqn:E; cbn [rbind] in H; [| discriminate H]
  end.

Lemma prefix_app (a s : string) : String.prefix a (a ++ s) = true.
Proof.
  induction a as [| c a IH]; cbn; [now destruct s |].
  destruct (ascii_dec c c); [exact IH | contradiction].
Qed.

Lemma contains_prefix (sub s : string) :
  String.prefix sub s = true -> contains sub s = true.
Proof. intros H. destruct s; cbn [contains]; now rewrite H. Qed.

Lemma contains_app (a p s : string) : contains a (p ++ a ++ s) = true.
Proof.
  induction p as [| c p IH].
  - cbn [append]. apply contains_prefix, prefix_app.
  - cbn [append contains]. rewrite IH. apply orb_true_r.
Qed.

Section Assembly.

Context {T : Type} (C : Collaborators T).

(** *** Construction *)

Lemma init_inv (cfg : config) (self : FinalModel) :
  __init__ C cfg = Ok self ->
  validate cfg = Ok tt /\
  (exists b2 b3 b4 s1,
      build_blocks C cfg = Ok (_first_conv_block_1 self, b2, b3, b4, s1)) /\
  _pos_skip self = pos_skip cfg /\
  _use_pre_activation_design self = use_pre_activation_design cfg.
Proof.
  unfold __init__. intros H.
  step_bind H. destruct a.
  step_bind H. step_bind H.
  destruct a0 as [[[[b1 b2] b3] b4] s1].
  destruct (out_channel_blocks cfg) as [[[[c1 c2] c3] c4] c5].
  repeat step_bind H.
  injection H as <-. cbn.
  split; [reflexivity |]. split; [| split; reflexivity].
  now exists b2, b3, b4, s1.
Qed.

Lemma build_blocks_unrecognised_pos_skip (cfg : config)
  (b1 : option module) (b2 b3 b4 : module) (s1 : option module) :
  use_pre_activation_design cfg = false ->
  pos_skip cfg <> "all" ->
  pos_skip cfg <> "not_last" ->
  pos_skip cfg <> "not_first" ->
  build_blocks C cfg = Ok (b1, b2, b3, b4, s1) ->
  b1 = None /\ s1 = None.
Proof.
  intros Hpre Ha Hl Hf. unfold build_blocks.
  destruct (out_channel_blocks cfg) as [[[[c1 c2] c3] c4] c5].
  rewrite Hpre.
  apply String.eqb_neq in Ha, Hl, Hf. rewrite Ha, Hl, Hf. cbn [orb rbind].
  intros H. do 3 step_bind H. now injection H as <- _ _ _ <-.
Qed.

Lemma validate_down_sample (cfg : config) :
  known_down_sample (down_sample cfg) = false ->
  validate cfg = Err (AssertionError msg_down_sample).
Proof.
  unfold validate, known_down_sample. intros ->. reflexivity.
Qed.

Lemma build_attention_unknown (cfg : config) :
  known_attention_type (attention_type cfg) = false ->
  build_attention C cfg
  = Err (ValueError ("Attention type " ++ attention_type cfg
                     ++ " not supported!")).
Proof.
  unfold known_attention_type, build_attention. intros H.
  repeat (apply orb_false_iff in H; destruct H as [H ?]).
  cbv zeta.
  repeat match goal with
         | E : (_ =? _) = false |- _ => rewrite E; clear E
         end.
  reflexivity.
Qed.

Lemma init_unknown_attention_fails (cfg : config) :
  known_attention_type (attention_type cfg) = false ->
  exists e, __init__ C cfg = Err e.
Proof.
  intros H. unfold __init__.
  destruct (validate cfg) as [[] | e]; cbn [rbind]; [| now exists e].
  destruct (build_starting_conv C cfg) as [sc | e]; cbn [rbind]; [| now exists e].
  destruct (build_blocks C cfg) as [[[[[b1 b2] b3] b4] s1] | e];
    cbn [rbind]; [| now exists e].
  destruct (out_channel_blocks cfg) as [[[[c1 c2] c3] c4] c5].
  repeat match goal with
         | |- exists e, rbind (new C ?l) _ = Err e =>
             destruct (new C l) as [? | e]; cbn [rbind]; [| now exists e]
         end.
  rewrite (build_attention_unknown cfg H). cbn [rbind]. eauto.
Qed.

Section AllConstructorsSucceed.

Hypothesis construct_ok : forall l, construct C l = Ok tt.

Lemma new_ok (l : layer) : new C l = Ok l.
Proof. unfold new. now rewrite construct_ok. Qed.

Lemma build_starting_conv_ok (cfg : config) :
  (use_pre_activation_design cfg && use_pre_conv cfg = true ->
   known_norm_type (norm_type cfg) = true) ->
  exists sc, build_starting_conv C cfg = Ok sc.
Proof.
  unfold build_starting_conv, known_norm_type. intros H.
  destruct (use_pre_activation_design cfg && use_pre_conv cfg); [| eauto].
  specialize (H eq_refl).
  destruct (norm_type cfg =? "BN") eqn:EB;
    [| destruct (norm_type cfg =? "IN") eqn:EI; [| discriminate H]];
    rewrite ?new_ok; cbn [rbind];
    destruct (truthy_bool (norm_before_act cfg));
    rewrite ?new_ok; cbn [rbind local_starting_norm];
    rewrite ?new_ok; cbn [rbind]; eauto.
Qed.

Lemma build_blocks_ok (cfg : config) :
  exists bs, build_blocks C cfg = Ok bs.
Proof.
  unfold build_blocks.
  destruct (out_channel_blocks cfg) as [[[[c1 c2] c3] c4] c5].
  destruct (use_pre_activation_design cfg);
    destruct (pos_skip cfg =? "all");
    destruct (pos_skip cfg =? "not_last");
    destruct (pos_skip cfg =? "not_first");
    cbn [orb]; rewrite ?new_ok; cbn [rbind];
    rewrite ?new_ok; cbn [rbind]; eauto.
Qed.

Lemma build_attention_ok (cfg : config) :
  known_attention_type (attention_type cfg) = true ->
  exists a, build_attention C cfg = Ok a.
Proof.
  unfold known_attention_type, build_attention. intros H. cbv zeta.
  destruct (attention_type cfg =? "v1"); [rewrite new_ok; cbn [rbind]; eauto |].
  destruct (attention_type cfg =? "v2"); [rewrite new_ok; cbn [rbind]; eauto |].
  destruct (attention_type cfg =? "v3"); [rewrite new_ok; cbn [rbind]; eauto |].
  destruct (attention_type cfg =? "v4"); [rewrite new_ok; cbn [rbind]; eauto |].
  destruct (attention_type cfg =? "v5"); [rewrite new_ok; cbn [rbind]; eauto |].
  discriminate H.
Qed.

Lemma init_succeeds (cfg : config) :
  validate cfg = Ok tt ->
  (use_pre_activation_design cfg && use_pre_conv cfg = true ->
   known_norm_type (norm_type cfg) = true) ->
  known_attention_type (attention_type cfg) = true ->
  exists self, __init__ C cfg = Ok self.
Proof.
  intros Hv Hn Ha. unfold __init__. rewrite Hv. cbn [rbind].
  destruct (build_starting_conv_ok cfg Hn) as [sc ->]. cbn [rbind].
  destruct (build_blocks_ok cfg) as [[[[[b1 b2] b3] b4] s1] ->]. cbn [rbind].
  destruct (out_channel_blocks cfg) as [[[[c1 c2] c3] c4] c5].
  rewrite ?new_ok. cbn [rbind].
  destruct (build_attention_ok cfg Ha) as [a ->]. cbn [rbind].
  rewrite ?new_ok. cbn [rbind].
  destruct (apply_final_activation cfg);
    [destruct (multi_label_training cfg) |];
    rewrite ?new_ok; cbn [rbind]; eauto.
Qed.

Lemma init_unknown_attention_error (cfg : config) :
  validate cfg = Ok tt ->
  (use_pre_activation_design cfg && use_pre_conv cfg = true ->
   known_norm_type (norm_type cfg) = true) ->
  known_attention_type (attention_type cfg) = false ->
  __init__ C cfg
  = Err (ValueError ("Attention type " ++ attention_type cfg
                     ++ " not supported!")).
Proof.
  intros Hv Hn Ha. unfold __init__. rewrite Hv. cbn [rbind].
  destruct (build_starting_conv_ok cfg Hn) as [sc ->]. cbn [rbind].
  destruct (build_blocks_ok cfg) as [[[[[b1 b2] b3] b4] s1] ->]. cbn [rbind].
  destruct (out_channel_blocks cfg) as [[[[c1 c2] c3] c4] c5].
  rewrite ?new_ok. cbn [rbind].
  now rewrite (build_attention_unknown cfg Ha).
Qed.

End AllConstructorsSucceed.

(** C1. A model built without the pre-activation design from a
    [pos_skip] that is none of "all", "not_last", "not_first" has no
    [_first_conv_block_1]: construction succeeded, and [forward] raises
    AttributeError on any input, before any submodule is called. *)
Theorem unrecognised_pos_skip_fails_in_forward (cfg : config)
  (self : FinalModel) (x : pyval T) (log : call_log) :
  use_pre_activation_design cfg = false ->
  pos_skip cfg <> "all" ->
  pos_skip cfg <> "not_last" ->
  pos_skip cfg <> "not_first" ->
  __init__ C cfg = Ok self ->
  forward C self x log = (Err (no_attribute "_first_conv_block_1"), log).
Proof.
  intros Hpre Ha Hl Hf Hinit.
  destruct (init_inv cfg self Hinit) as [_ [[b2 [b3 [b4 [s1 Hb]]]] [_ Hpd]]].
  destruct (build_blocks_unrecognised_pos_skip cfg _ b2 b3 b4 s1
              Hpre Ha Hl Hf Hb) as [Hb1 _].
  unfold forward, conv_stage. rewrite Hpd, Hpre, Hb1. reflexivity.
Qed.

(** C4 (as amended). Without the pre-activation design and with the
    first three assertions passing, [norm_before_act=False] fails
    construction with the AssertionError "Norm after activation not possible
    without preactivation design", whereas [norm_before_act=True] (or
    [None]) passes the assertions, and construction succeeds when the
    attention type is known and no submodule constructor raises. *)
Theorem norm_after_activation_needs_preactivation (cfg : config) :
  use_pre_activation_design cfg = false ->
  known_down_sample (down_sample cfg) = true ->
  use_reduced_head_dims_ cfg = None ->
  attention_activation_function_ cfg = None ->
  (norm_before_act cfg = Some false ->
   __init__ C cfg = Err (AssertionError msg_norm_before_act)) /\
  (norm_before_act cfg <> Some false ->
   validate cfg = Ok tt /\
   ((forall l, construct C l = Ok tt) ->
    known_attention_type (attention_type cfg) = true ->
    exists self, __init__ C cfg = Ok self)).
Proof.
  intros Hpre Hds Hr Ha.
  assert (Hv : validate cfg
               = assert (is_None (norm_before_act cfg)
                         || match norm_before_act cfg with
                            | Some true => true
                            | _ => false
                            end) msg_norm_before_act).
  { unfold validate. unfold known_down_sample in Hds.
    rewrite Hds, Hr, Ha, Hpre. reflexivity. }
  split.
  - intros Hn. unfold __init__. rewrite Hv, Hn. reflexivity.
  - intros Hn.
    assert (Hok : validate cfg = Ok tt).
    { rewrite Hv. destruct (norm_before_act cfg) as [[|] |];
        [reflexivity | congruence | reflexivity]. }
    split; [exact Hok |].
    intros Hc Hat. apply (init_succeeds Hc cfg Hok); [| exact Hat].
    rewrite Hpre. discriminate.
Qed.

(** C6 (as amended). A [down_sample] outside conv, max_pool, avg_pool
    makes construction fail at the first assertion, with the fixed message
    "Downsampling should either be conv or max_pool or avg_pool".  An
    [attention_type] outside v1..v5 never yields a model; when the
    assertions pass, [norm_type] is BN or IN where it is read and no
    submodule constructor raises, the error is the ValueError
    "Attention type <value> not supported!", whose message contains the
    value. *)
Theorem invalid_enumeration_fails_construction (cfg : config) :
  (known_down_sample (down_sample cfg) = false ->
   __init__ C cfg = Err (AssertionError msg_down_sample)) /\
  (known_attention_type (attention_type cfg) = false ->
   (exists e, __init__ C cfg = Err e) /\
   (validate cfg = Ok tt ->
    (use_pre_activation_design cfg && use_pre_conv cfg = true ->
     known_norm_type (norm_type cfg) = true) ->
    (forall l, construct C l = Ok tt) ->
    exists msg,
      __init__ C cfg = Err (ValueError msg) /\
      msg = "Attention type " ++ attention_type cfg ++ " not supported!" /\
      contains (attention_type cfg) msg = true)).
Proof.
  split.
  - intros H. unfold __init__. now rewrite (validate_down_sample cfg H).
  - intros H. split; [now apply init_unknown_attention_fails |].
    intros Hv Hn Hc. eexists. split; [| split; [reflexivity |]].
    + now apply init_unknown_attention_error.
    + apply contains_app.
Qed.

(** *** The call log of [forward] *)

Lemma first_stage_calls_app (l1 l2 : list (string * pyval T)) :
  first_stage_calls (l1 ++ l2)
  = (first_stage_calls l1 ++ first_stage_calls l2)%list.
Proof. apply filter_app. Qed.

Lemma quiet_fret (A : Type) (a : A) : quiet (T:=T) (fret a).
Proof. intros log. exists []. now rewrite app_nil_r. Qed.

Lemma quiet_flift (A : Type) (r : result A) : quiet (T:=T) (flift r).
Proof. intros log. exists []. now rewrite app_nil_r. Qed.

Lemma quiet_call_attr (name : string) (m : option module) (v : pyval T) :
  is_first_stage_block name = false -> quiet (call_attr C name m v).
Proof.
  intros Hn. destruct m as [m |]; [| apply quiet_flift].
  intros log. exists [(name, v)]. split; [reflexivity |].
  unfold first_stage_calls. cbn. now rewrite Hn.
Qed.

Lemma quiet_fbind (A B : Type) (m : @FM T A) (f : A -> @FM T B) :
  quiet m -> (forall a, quiet (f a)) -> quiet (fbind m f).
Proof.
  intros Hm Hf log. unfold fbind.
  destruct (Hm log) as [e1 [H1 F1]].
  destruct (m log) as [[a | e] l']; cbn [snd] in H1; subst l'.
  - destruct (Hf a (log ++ e1)%list) as [e2 [H2 F2]].
    exists (e1 ++ e2)%list. rewrite H2, app_assoc. split; [reflexivity |].
    now rewrite first_stage_calls_app, F1, F2.
  - now exists e1.
Qed.

Ltac solve_quiet :=
  repeat first
    [ apply quiet_fret
    | apply quiet_flift
    | apply quiet_call_attr; reflexivity
    | apply quiet_fbind; [| intro]
    | match goal with
      | |- quiet (if ?b then _ else _) => destruct b
      end ].

Lemma quiet_pre_conv_stage (self : FinalModel) (x : pyval T) :
  quiet (pre_conv_stage C self x).
Proof. unfold pre_conv_stage. solve_quiet. Qed.

Lemma quiet_preact_last_block (self : FinalModel) (x : pyval T) :
  quiet (preact_last_block C self x).
Proof. unfold preact_last_block. solve_quiet. Qed.

Lemma quiet_head_stage (self : FinalModel) (x : pyval T) :
  quiet (head_stage C self x).
Proof. unfold head_stage. solve_quiet. Qed.

Lemma quiet_log (A : Type) (m : @FM T A) (log : call_log) :
  quiet m -> first_stage_calls (snd (m log)) = first_stage_calls log.
Proof.
  intros Hm. destruct (Hm log) as [ext [-> Hext]].
  now rewrite first_stage_calls_app, Hext, app_nil_r.
Qed.

Lemma quiet_bind_log (A B : Type) (m : @FM T A) (f : A -> @FM T B)
  (log : call_log) :
  (forall a, quiet (f a)) ->
  first_stage_calls (snd (fbind m f log)) = first_stage_calls (snd (m log)).
Proof.
  intros Hf. unfold fbind. destruct (m log) as [[a | e] l']; [| reflexivity].
  now apply quiet_log.
Qed.

Lemma block_step (A : Type) (name : string) (m : module) (v : pyval T)
  (K : pyval T -> @FM T A) (log : call_log) :
  is_first_stage_block name = true ->
  first_stage_calls (snd (fbind (call_attr C name (Some m) v) K log))
  = match run C m v with
    | Ok y => first_stage_calls (snd (K y (log ++ [(name, v)])%list))
    | Err _ => (first_stage_calls log ++ [(name, v)])%list
    end.
Proof.
  intros Hn. unfold fbind, call_attr.
  destruct (run C m v) as [y | e]; [reflexivity |].
  cbn [snd]. rewrite first_stage_calls_app. f_equal.
  unfold first_stage_calls. cbn. now rewrite Hn.
Qed.

(** C10. In the pre-activation design, when the optional pre-convolution
    yields [x0], the calls received by the four first-stage blocks during
    [forward] are: block 1 with the pair (x0, x0), then each next block
    with exactly what its predecessor returned. *)
Theorem preactivation_residual_chain (self : FinalModel) (m1 : module)
  (x x0 : pyval T) :
  _use_pre_activation_design self = true ->
  fst (pre_conv_stage C self x []) = Ok x0 ->
  _first_conv_block_1 self = Some m1 ->
  first_stage_calls (snd (forward C self x []))
  = residual_chain C self m1 x0.
Proof.
  intros Hpre Hx0 Hm1. unfold forward.
  rewrite quiet_bind_log by (intro; apply quiet_head_stage).
  unfold conv_stage. rewrite Hpre, Hm1.
  pose proof (quiet_log _ (pre_conv_stage C self x) []
                (quiet_pre_conv_stage self x)) as Hq.
  unfold fbind at 1.
  destruct (pre_conv_stage C self x []) as [r0 log0].
  cbn [fst snd] in Hx0, Hq. subst r0. cbn in Hq.
  unfold residual_chain.
  rewrite block_step by reflexivity.
  destruct (run C m1 (Tuple x0 x0)) as [y1 | e]; [| now rewrite Hq].
  rewrite block_step by reflexivity.
  destruct (run C (_first_conv_block_2 self) y1) as [y2 | e];
    [| now rewrite first_stage_calls_app, Hq].
  rewrite block_step by reflexivity.
  destruct (run C (_first_conv_block_3 self) y2) as [y3 | e];
    [| now rewrite !first_stage_calls_app, Hq].
  rewrite block_step by reflexivity.
  destruct (run C (_first_conv_block_4 self) y3) as [y4 | e];
    [rewrite (quiet_log _ _ _ (quiet_preact_last_block self y4)) |];
    now rewrite !first_stage_calls_app, Hq.
Qed.

End Assembly.

(** *** Instances on the extent-tracking collaborators *)

(** The script at the end of final_model.py: extents (2, 12, 72000) in,
    (2, num_classes) out. *)
Example main_scenario :
  exists self,
    __init__ shapes main_config = Ok self /\
    fst (forward shapes self main_input []) = Ok (Tensor [2; 9]%Z).
Proof. eexists. split; vm_compute; reflexivity. Qed.

Lemma unrecognised_pos_skip_fails_in_forward_witness :
  exists self,
    __init__ shapes (config_with "conv" "none" (Some true) false "v2")
    = Ok self /\
    forward shapes self main_input []
    = (Err (no_attribute "_first_conv_block_1"), []).
Proof.
  eexists. split.
  - vm_compute. reflexivity.
  - apply (unrecognised_pos_skip_fails_in_forward shapes
             (config_with "conv" "none" (Some true) false "v2"));
      try reflexivity; discriminate.
Defined.

(** C4, as stated, fails: without the pre-activation design,
    [norm_before_act=True] constructs and [norm_before_act=False] is the
    one that is refused. *)
Lemma norm_before_act_true_constructs_false_refused :
  (exists self,
      __init__ shapes (config_with "conv" "not_last" (Some true) false "v2")
      = Ok self) /\
  __init__ shapes (config_with "conv" "not_last" (Some false) false "v2")
  = Err (AssertionError msg_norm_before_act).
Proof. split; [eexists |]; vm_compute; reflexivity. Qed.

Lemma norm_after_activation_needs_preactivation_witness :
  __init__ permissive (config_with "conv" "not_last" (Some false) false "v2")
  = Err (AssertionError msg_norm_before_act) /\
  validate (config_with "conv" "not_last" (Some true) false "v2") = Ok tt /\
  exists self,
    __init__ permissive (config_with "conv" "not_last" (Some true) false "v2")
    = Ok self.
Proof.
  split.
  - apply (norm_after_activation_needs_preactivation permissive
             (config_with "conv" "not_last" (Some false) false "v2"));
      reflexivity.
  - destruct (norm_after_activation_needs_preactivation permissive
                (config_with "conv" "not_last" (Some true) false "v2")
                eq_refl eq_refl eq_refl eq_refl) as [_ H].
    destruct H as [Hv Hc]; [discriminate |].
    split; [exact Hv |]. apply Hc; reflexivity.
Defined.

(** C6, as stated, fails: the error raised for [down_sample="foo"] does
    not name the value. *)
Lemma down_sample_error_omits_value :
  exists e,
    __init__ shapes (config_with "foo" "not_last" (Some true) true "v2")
    = Err e /\
    contains "foo" (message e) = false.
Proof. eexists. split; vm_compute; reflexivity. Qed.

Lemma invalid_enumeration_fails_construction_witness :
  __init__ permissive (config_with "foo" "not_last" (Some true) true "v2")
  = Err (AssertionError msg_down_sample) /\
  exists msg,
    __init__ permissive (config_with "conv" "not_last" (Some true) true "v6")
    = Err (ValueError msg) /\
    msg = "Attention type v6 not supported!" /\
    contains "v6" msg = true.
Proof.
  split.
  - apply (invalid_enumeration_fails_construction permissive
             (config_with "foo" "not_last" (Some true) true "v2")).
    reflexivity.
  - apply (invalid_enumeration_fails_construction permissive
             (config_with "conv" "not_last" (Some true) true "v6"));
      reflexivity.
Defined.

Lemma preactivation_residual_chain_witness :
  exists self m1,
    __init__ shapes main_config = Ok self /\
    _use_pre_activation_design self = true /\
    fst (pre_conv_stage shapes self main_input [])
    = Ok (Tensor [2; 12; 71985]%Z) /\
    _first_conv_block_1 self = Some m1 /\
    first_stage_calls (snd (forward shapes self main_input []))
    = residual_chain shapes self m1 (Tensor [2; 12; 71985]%Z).
Proof.
  eexists. eexists.
  split; [vm_compute; reflexivity |].
  split; [reflexivity |].
  split; [vm_compute; reflexivity |].
  split; [reflexivity |].
  apply preactivation_residual_chain;
    [reflexivity | vm_compute; reflexivity | reflexivity].
Defined.

End FinalFacts.

(** ** Further properties of the attention block *)

Module MHAExtras.
Import Torch TorchFacts MHA MHAFacts.

Open Scope nat_scope.

(** *** Only [_scores] is written *)

Lemma same_parameters_refl (s : MultiHeadAttention) : same_parameters s s.
Proof. repeat split. Qed.

Lemma same_parameters_trans (s1 s2 s3 : MultiHeadAttention) :
  same_parameters s1 s2 -> same_parameters s2 s3 -> same_parameters s1 s3.
Proof.
  unfold same_parameters. intros H1 H2.
  repeat match goal with
         | H : _ /\ _ |- _ => destruct H
         end.
  repeat split; congruence.
Qed.

Lemma frames_mret (A : Type) (a : A) : frames (mret a).
Proof. intros s. apply same_parameters_refl. Qed.

Lemma frames_lift (A : Type) (r : result A) : frames (lift r).
Proof. intros s. apply same_parameters_refl. Qed.

Lemma frames_get_self : frames get_self.
Proof. intros s. apply same_parameters_refl. Qed.

Lemma frames_read_scores : frames read_scores.
Proof.
  intros s. unfold read_scores.
  destruct (_scores s); apply same_parameters_refl.
Qed.

Lemma frames_set_scores (t : tensor) : frames (set_scores t).
Proof. intros s. repeat split. Qed.

Lemma frames_mbind (A B : Type) (m : M A) (f : A -> M B) :
  frames m -> (forall a, frames (f a)) -> frames (mbind m f).
Proof.
  intros Hm Hf s. unfold mbind. specialize (Hm s).
  destruct (m s) as [[a | e] s1]; cbn [snd] in *; [| exact Hm].
  apply (same_parameters_trans s s1); [exact Hm | apply Hf].
Qed.

Ltac solve_frames :=
  repeat first
    [ apply frames_mret
    | apply frames_lift
    | apply frames_get_self
    | apply frames_read_scores
    | apply frames_set_scores
    | apply frames_mbind; [| intro]
    | match goal with
      | |- frames (match _dropout ?s with _ => _ end) => destruct (_dropout s)
      | |- frames (let '(_, _) := ?p in _) => destruct p
      end ].

Lemma frames_project_heads (query key value : tensor) :
  frames (project_heads query key value).
Proof. unfold project_heads. solve_frames. Qed.

Lemma frames_scaled_dot_product (Q K : tensor) :
  frames (scaled_dot_product Q K).
Proof. unfold scaled_dot_product. solve_frames. Qed.

Lemma frames_apply_softmax : frames apply_softmax.
Proof. unfold apply_softmax. solve_frames. Qed.

Lemma frames_attention_core (Q K V : tensor) (keep : list nat -> bool) :
  frames (attention_core Q K V keep).
Proof.
  unfold attention_core, scaled_dot_product, apply_softmax, apply_dropout,
    weighted_values.
  solve_frames.
Qed.

(** X1. Whatever its inputs and whether it returns or raises, [forward]
    changes no field of the module other than [_scores]: the head count,
    the key dimension, the four projections, the dropout setting and the
    training flag are the same afterwards. *)
Theorem forward_writes_only_scores (self : MultiHeadAttention)
  (query key value : tensor) (mask : option string)
  (keep : list nat -> bool) :
  same_parameters self (snd (forward query key value mask keep self)).
Proof.
  revert self. change (frames (forward query key value mask keep)).
  unfold forward.
  apply frames_mbind; [apply frames_project_heads |].
  intros [[Q K] V].
  apply frames_mbind; [apply frames_attention_core |].
  intros att. solve_frames.
Qed.

(** *** The random draw matters in training mode only *)

Lemma dropout_disabled_same (s s' : MultiHeadAttention) :
  same_parameters s s' -> dropout_disabled s -> dropout_disabled s'.
Proof.
  intros (_ & _ & _ & _ & _ & _ & _ & Hd & Ht) [H | H]; [left | right];
    congruence.
Qed.

Lemma apply_dropout_draw (s : MultiHeadAttention)
  (keep keep' : list nat -> bool) :
  dropout_disabled s -> apply_dropout keep s = apply_dropout keep' s.
Proof.
  intros H. unfold apply_dropout, mbind, get_self.
  destruct (_dropout s) as [p |] eqn:Ed; [| reflexivity].
  destruct H as [H | H]; [congruence |].
  unfold read_scores. destruct (_scores s); [| reflexivity].
  unfold set_scores, Dropout_forward. now rewrite H.
Qed.

Lemma mbind_ext_on (A B : Type) (m : M A) (f g : A -> M B)
  (s : MultiHeadAttention) :
  (forall a s1, m s = (Ok a, s1) -> f a s1 = g a s1) ->
  mbind m f s = mbind m g s.
Proof.
  intros H. unfold mbind.
  destruct (m s) as [[a | e] s1]; [now apply H | reflexivity].
Qed.

Lemma frames_step (A : Type) (m : M A) (s s1 : MultiHeadAttention)
  (r : result A) :
  frames m -> m s = (r, s1) -> same_parameters s s1.
Proof. intros F E. specialize (F s). now rewrite E in F. Qed.

Lemma attention_core_draw (s : MultiHeadAttention) (Q K V : tensor)
  (keep keep' : list nat -> bool) :
  dropout_disabled s ->
  attention_core Q K V keep s = attention_core Q K V keep' s.
Proof.
  intros H. unfold attention_core.
  apply mbind_ext_on. intros [] s1 E1.
  apply mbind_ext_on. intros [] s2 E2.
  unfold mbind.
  rewrite (apply_dropout_draw s2 keep keep'); [reflexivity |].
  apply (dropout_disabled_same s); [| exact H].
  apply (same_parameters_trans s s1 s2).
  - exact (frames_step _ _ _ _ _ (frames_scaled_dot_product Q K) E1).
  - exact (frames_step _ _ _ _ _ frames_apply_softmax E2).
Qed.

(** X2. When no dropout is configured or the module is in evaluation
    mode, [forward] does not depend on the random draw: both the returned
    value and the module left behind are the same for any two draws. *)
Theorem forward_without_dropout_ignores_draw (self : MultiHeadAttention)
  (query key value : tensor) (mask : option string)
  (keep keep' : list nat -> bool) :
  dropout_disabled self ->
  forward query key value mask keep self
  = forward query key value mask keep' self.
Proof.
  intros H. unfold forward.
  apply mbind_ext_on. intros [[Q K] V] s1 E1.
  unfold mbind.
  rewrite (attention_core_draw s1 Q K V keep keep'); [reflexivity |].
  apply (dropout_disabled_same self); [| exact H].
  exact (frames_step _ _ _ _ _ (frames_project_heads query key value) E1).
Qed.

Lemma forward_without_dropout_ignores_draw_witness :
  dropout_disabled (Samples.sample_module None) /\
  forward (Samples.ramp [1; 2; 2]) (Samples.ramp [1; 3; 2])
          (Samples.ramp [1; 3; 2]) None Samples.keep_all
          (Samples.sample_module None)
  = forward (Samples.ramp [1; 2; 2]) (Samples.ramp [1; 3; 2])
            (Samples.ramp [1; 3; 2]) None (fun _ => false)
            (Samples.sample_module None).
Proof.
  split; [left; reflexivity |].
  apply forward_without_dropout_ignores_draw. left. reflexivity.
Defined.

(** *** The first call on a fresh module *)

(** X3. A module built by [__init__] with equal query and key dimensions
    and at least one head has [_scores = None]; its [forward] on a query of
    extents (batch, Lq, d_model) and key and value of extents
    (batch, Lk, d_model) returns, with extents (batch, Lq, d_model) less the
    dimensions of extent 1, and leaves in [_scores] a tensor of extents
    (h*batch, Lq, Lk). *)
Theorem first_call_fills_scores (d_model k v h b lq lk : nat)
  (dropout : option R) (discard : bool) (pq pk pv po : params)
  (self : MultiHeadAttention) (query key value : tensor)
  (mask : option string) (keep : list nat -> bool) :
  __init__ d_model k k v h dropout discard pq pk pv po = Ok self ->
  0 < h ->
  shape query = [b; lq; d_model] ->
  shape key = [b; lk; d_model] ->
  shape value = [b; lk; d_model] ->
  _scores self = None /\
  exists out sc,
    fst (forward query key value mask keep self) = Ok out /\
    shape out = filter (fun d => negb (d =? 1)) [b; lq; d_model] /\
    _scores (snd (forward query key value mask keep self)) = Some sc /\
    shape sc = [h * b; lq; lk].
Proof.
  intros Hinit Hh Hq Hk Hv.
  destruct (init_sized _ _ _ _ _ _ _ _ _ _ _ _ Hinit) as [Hwf [Hh' [Hs _]]].
  split; [exact Hs |]. rewrite <- Hh' in Hh.
  destruct (forward_spec self d_model k v b lq lk query key value mask keep
              Hwf Hh Hq Hk Hv)
    as [Q [K [V [w [hd [o [_ [Hweq [_ [_ [So Hf]]]]]]]]]]].
  exists (squeeze o), (after_dropout self keep w). rewrite Hf.
  repeat split.
  - cbn [squeeze shape]. now rewrite So.
  - rewrite after_dropout_shape. destruct Hweq as [-> _].
    cbn [weights_of shape]. now rewrite Hh'.
Qed.

Lemma first_call_fills_scores_witness :
  _scores (Samples.sample_module None) = None /\
  exists out sc,
    fst (forward (Samples.ramp [3; 1; 2]) (Samples.ramp [3; 4; 2])
                 (Samples.ramp [3; 4; 2]) None Samples.keep_all
                 (Samples.sample_module None)) = Ok out /\
    shape out = filter (fun d => negb (d =? 1)) [3; 1; 2] /\
    _scores (snd (forward (Samples.ramp [3; 1; 2]) (Samples.ramp [3; 4; 2])
                          (Samples.ramp [3; 4; 2]) None Samples.keep_all
                          (Samples.sample_module None))) = Some sc /\
    shape sc = [2 * 3; 1; 4].
Proof.
  exact (first_call_fills_scores 2 1 1 2 3 1 4 None false
           Samples.zero_params Samples.zero_params Samples.zero_params
           Samples.zero_params (Samples.sample_module None)
           (Samples.ramp [3; 1; 2]) (Samples.ramp [3; 4; 2])
           (Samples.ramp [3; 4; 2]) None Samples.keep_all
           eq_refl Nat.lt_0_2 eq_refl eq_refl eq_refl).
Defined.

(** *** Where [forward] raises, and what it has written by then *)

(** X4. When the per-head query and key dimensions differ, [forward]
    raises a RuntimeError at the product of line 112 and the module is
    left exactly as it was. *)
Theorem forward_key_width_mismatch (self : MultiHeadAttention)
  (d_model k q v b lq lk lv : nat) (query key value : tensor)
  (mask : option string) (keep : list nat -> bool) :
  projections_sized d_model k q v self ->
  0 < _h self ->
  q <> k ->
  shape query = [b; lq; d_model] ->
  shape key = [b; lk; d_model] ->
  shape value = [b; lv; d_model] ->
  exists msg,
    forward query key value mask keep self = (Err (RuntimeError msg), self).
Proof.
  intros Hwf Hh Hne Hq Hk Hv.
  destruct (project_heads_spec self d_model k q v b lq lk lv query key value
              Hwf Hh Hq Hk Hv) as [Q [K [V [Hp [SQ [SK SV]]]]]].
  unfold forward. unfold mbind at 1. rewrite Hp.
  unfold attention_core, scaled_dot_product, mbind, get_self, lift.
  rewrite (transpose12_spec _ _ _ _ SK). cbn [rbind].
  unfold bmm. rewrite SQ. cbn [shape].
  rewrite Nat.eqb_refl. apply Nat.eqb_neq in Hne. rewrite Hne. cbn [andb].
  eexists. reflexivity.
Qed.

Lemma forward_key_width_mismatch_witness :
  exists msg,
    forward (Samples.ramp [1; 2; 2]) (Samples.ramp [1; 3; 2])
            (Samples.ramp [1; 3; 2]) None Samples.keep_all
            Samples.mismatched_module
    = (Err (RuntimeError msg), Samples.mismatched_module).
Proof.
  apply (forward_key_width_mismatch Samples.mismatched_module 2 1 3 1 1 2 3 3);
    try reflexivity.
  - repeat split.
  - exact Nat.lt_0_2.
  - discriminate.
Defined.

(** X5. When the key and value sequences differ in length, [forward]
    raises a RuntimeError at the product of line 120, after [_scores] has
    been overwritten: the module left behind holds the weights of this
    call (as left by the dropout step). *)
Theorem forward_value_length_mismatch (self : MultiHeadAttention)
  (d_model k v b lq lk lv : nat) (query key value : tensor)
  (mask : option string) (keep : list nat -> bool) :
  projections_sized d_model k k v self ->
  0 < _h self ->
  lk <> lv ->
  shape query = [b; lq; d_model] ->
  shape key = [b; lk; d_model] ->
  shape value = [b; lv; d_model] ->
  exists w msg,
    _scores (snd (forward_until_softmax query key value self)) = Some w /\
    forward query key value mask keep self
    = (Err (RuntimeError msg), with_scores self (after_dropout self keep w)).
Proof.
  intros Hwf Hh Hne Hq Hk Hv.
  destruct (forward_until_softmax_spec self d_model k v b lq lk lv
              query key value Hwf Hh Hq Hk Hv)
    as [Q [K [V [w [Hp [SQ [SK [SV [Hweq Hu]]]]]]]]].
  destruct (scores_spec self _ _ _ _ Q K SQ SK) as [w' [Hw Hweq']].
  assert (Hww : w' = w).
  { unfold forward_until_softmax in Hu. unfold mbind at 1 in Hu.
    rewrite Hp in Hu. unfold mbind at 1 2 in Hu. unfold mbind in Hw.
    destruct (scaled_dot_product Q K self) as [[[] | e] s1]; [| discriminate].
    rewrite Hw in Hu. unfold mret in Hu.
    apply (f_equal (fun p => _scores (snd p))) in Hu. cbn in Hu.
    now injection Hu. }
  subst w'.
  assert (Hsh : shape (after_dropout self keep w) = [_h self * b; lq; lk]).
  { rewrite after_dropout_shape. destruct Hweq as [-> _]. reflexivity. }
  exists w. eexists. rewrite Hu. split; [reflexivity |].
  unfold forward. unfold mbind at 1. rewrite Hp.
  unfold attention_core. unfold mbind at 1 2 3. unfold mbind in Hw.
  destruct (scaled_dot_product Q K self) as [[[] | e] s1]; [| discriminate].
  rewrite Hw. unfold mbind at 1. rewrite apply_dropout_spec.
  unfold weighted_values, mbind, read_scores, lift.
  cbn [with_scores _scores].
  unfold bmm. rewrite Hsh, SV.
  rewrite Nat.eqb_refl. apply Nat.eqb_neq in Hne. rewrite Hne. cbn [andb].
  reflexivity.
Qed.

Lemma forward_value_length_mismatch_witness :
  exists w msg,
    _scores (snd (forward_until_softmax
                    (Samples.ramp [1; 2; 2]) (Samples.ramp [1; 3; 2])
                    (Samples.ramp [1; 4; 2]) (Samples.sample_module None)))
    = Some w /\
    forward (Samples.ramp [1; 2; 2]) (Samples.ramp [1; 3; 2])
            (Samples.ramp [1; 4; 2]) None Samples.keep_all
            (Samples.sample_module None)
    = (Err (RuntimeError msg),
       with_scores (Samples.sample_module None)
                   (after_dropout (Samples.sample_module None)
                                  Samples.keep_all w)).
Proof.
  apply (forward_value_length_mismatch (Samples.sample_module None)
           2 1 1 1 2 3 4); try reflexivity.
  - apply sample_module_sized.
  - exact Nat.lt_0_2.
  - discriminate.
Defined.

(** X6. With zero heads, [forward] raises a RuntimeError at the first
    [chunk] of line 107 and leaves the module as it was. *)
Theorem forward_zero_heads (self : MultiHeadAttention)
  (b lq d : nat) (query key value : tensor)
  (mask : option string) (keep : list nat -> bool) :
  _h self = 0 ->
  in_features (_W_q self) = d ->
  shape query = [b; lq; d] ->
  exists msg,
    forward query key value mask keep self = (Err (RuntimeError msg), self).
Proof.
  intros Hh Hin Hq.
  destruct (Linear_forward_spec (_W_q self) query b lq d Hq Hin) as [y [Hy _]].
  unfold forward, project_heads, mbind, get_self, lift.
  rewrite Hy. cbn [rbind]. unfold heads_to_batch, chunk. rewrite Hh.
  cbn. eexists. reflexivity.
Qed.

Lemma forward_zero_heads_witness :
  exists msg,
    forward (Samples.ramp [1; 2; 2]) (Samples.ramp [1; 3; 2])
            (Samples.ramp [1; 3; 2]) None Samples.keep_all
            Samples.headless_module
    = (Err (RuntimeError msg), Samples.headless_module).
Proof.
  apply (forward_zero_heads Samples.headless_module 1 2 2); reflexivity.
Defined.

(** X7. A rank-3 query whose last extent is not the [d_model] of the
    module makes [forward] raise a RuntimeError at the query projection,
    with the module left as it was. *)
Theorem forward_wrong_feature_width (self : MultiHeadAttention)
  (b lq d : nat) (query key value : tensor)
  (mask : option string) (keep : list nat -> bool) :
  shape query = [b; lq; d] ->
  d <> in_features (_W_q self) ->
  exists msg,
    forward query key value mask keep self = (Err (RuntimeError msg), self).
Proof.
  intros Hq Hne.
  unfold forward, project_heads, mbind, get_self, lift, Linear_forward.
  rewrite (rank3 _ _ _ _ Hq). unfold size_at. rewrite Hq. cbn [nth].
  apply Nat.eqb_neq in Hne. rewrite Hne. cbn [rbind].
  eexists. reflexivity.
Qed.

Lemma forward_wrong_feature_width_witness :
  exists msg,
    forward (Samples.ramp [1; 2; 5]) (Samples.ramp [1; 3; 2])
            (Samples.ramp [1; 3; 2]) None Samples.keep_all
            (Samples.sample_module None)
    = (Err (RuntimeError msg), Samples.sample_module None).
Proof.
  apply (forward_wrong_feature_width (Samples.sample_module None) 1 2 5);
    [reflexivity | discriminate].
Defined.

(** *** Where the heads sit *)

(** X8. Folding the heads into the batch axis (lines 107-109) is
    head-major: for extents (batch, L, h*d), row [r*batch + n] of the
    result is head [r] of batch entry [n], that is features
    [r*d .. r*d + d - 1] of the input. *)
Theorem heads_fold_layout (h b l d : nat) (x : tensor) :
  0 < h ->
  shape x = [b; l; h * d] ->
  exists y,
    heads_to_batch h x = Ok y /\
    forall r n i j, r < h -> n < b ->
      get y [r * b + n; i; j] = get x [n; i; r * d + j].
Proof.
  intros Hh Hx.
  destruct (heads_to_batch_spec h b l d x Hh Hx) as [y [Hy [_ Hg]]].
  exists y. split; [exact Hy |].
  intros r n i j Hr Hn. rewrite Hg by nia.
  rewrite (Nat.add_comm (r * b) n).
  rewrite Nat.Div0.mod_add, Nat.div_add by lia.
  rewrite (Nat.mod_small n b Hn), (Nat.div_small n b Hn).
  reflexivity.
Qed.

Lemma heads_fold_layout_witness :
  exists y,
    heads_to_batch 2 (Samples.ramp [2; 3; 4]) = Ok y /\
    forall r n i j, r < 2 -> n < 2 ->
      get y [r * 2 + n; i; j] = get (Samples.ramp [2; 3; 4]) [n; i; r * 2 + j].
Proof.
  exact (heads_fold_layout 2 2 3 2 (Samples.ramp [2; 3; 4])
           Nat.lt_0_2 eq_refl).
Defined.

(** X9. Unfolding the heads onto the feature axis (line 123) is the
    matching layout: for extents (h*batch, L, d), feature [r*d + j] of
    batch entry [n] of the result is feature [j] of row [r*batch + n]. *)
Theorem heads_unfold_layout (h b l d : nat) (y : tensor) :
  0 < h ->
  shape y = [h * b; l; d] ->
  exists z,
    batch_to_heads h y = Ok z /\
    forall r n i j, r < h -> j < d ->
      get z [n; i; r * d + j] = get y [r * b + n; i; j].
Proof.
  intros Hh Hy.
  destruct (batch_to_heads_spec h b l d y Hh Hy) as [z [Hz [_ Hg]]].
  exists z. split; [exact Hz |].
  intros r n i j Hr Hj. rewrite Hg by nia.
  rewrite (Nat.add_comm (r * d) j).
  rewrite Nat.Div0.mod_add, Nat.div_add by lia.
  rewrite (Nat.mod_small j d Hj), (Nat.div_small j d Hj).
  reflexivity.
Qed.

Lemma heads_unfold_layout_witness :
  exists z,
    batch_to_heads 2 (Samples.ramp [4; 3; 2]) = Ok z /\
    forall r n i j, r < 2 -> j < 2 ->
      get z [n; i; r * 2 + j] = get (Samples.ramp [4; 3; 2]) [r * 2 + n; i; j].
Proof.
  exact (heads_unfold_layout 2 2 3 2 (Samples.ramp [4; 3; 2])
           Nat.lt_0_2 eq_refl).
Defined.

(** *** An empty key axis *)

(** X21. With an empty key axis the attention core does not raise: the
    weights have no entry and the output, of extents (N, Lq, dv), is zero
    everywhere. *)
Theorem no_key_attention_is_zero (self : MultiHeadAttention)
  (N Lq dk dv : nat) (Q K V : tensor) (keep : list nat -> bool) :
  shape Q = [N; Lq; dk] ->
  shape K = [N; 0; dk] ->
  shape V = [N; 0; dv] ->
  exists out,
    fst (attention_core Q K V keep self) = Ok out /\
    shape out = [N; Lq; dv] /\
    forall n i j, get out [n; i; j] = 0%R.
Proof.
  intros HQ HK HV.
  destruct (attention_core_spec self N Lq 0 dk dv Q K V keep HQ HK HV)
    as [w [out [_ [_ [Hcore [Hsh Hget]]]]]].
  exists out. rewrite Hcore. split; [reflexivity |]. split; [exact Hsh |].
  intros n i j. now rewrite Hget.
Qed.

Lemma no_key_attention_is_zero_witness :
  exists out,
    fst (attention_core (Samples.ramp [2; 3; 1]) (Samples.ramp [2; 0; 1])
                        (Samples.ramp [2; 0; 2]) Samples.keep_all
                        (Samples.sample_module (Some (1 / 2)%R))) = Ok out /\
    shape out = [2; 3; 2] /\
    forall n i j, get out [n; i; j] = 0%R.
Proof.
  apply (no_key_attention_is_zero (Samples.sample_module (Some (1 / 2)%R))
           2 3 1 2); reflexivity.
Defined.

Close Scope nat_scope.

End MHAExtras.

(** ** Further properties of the model assembly *)

Module FinalExtras.
Import Final Shapes FinalFacts.

Open Scope string_scope.

Section Assembly.

Context {T : Type} (C : Collaborators T).

(** *** What the assertions refuse *)

(** X12. With a valid [down_sample] and an [attention_type] other than
    "v1", a [use_reduced_head_dims] that is not None fails construction
    with the AssertionError "use_reduced_head_dims can only be used with
    attention_type=v1!"; with it None, an [attention_activation_function]
    that is not None fails construction with the AssertionError
    "attention_activation_function can only be used with
    attention_type=v1!".  No other option and no submodule matters. *)
Theorem v1_only_options (cfg : config) :
  known_down_sample (down_sample cfg) = true ->
  attention_type cfg <> "v1" ->
  (use_reduced_head_dims_ cfg <> None ->
   __init__ C cfg = Err (AssertionError msg_reduced_head_dims)) /\
  (use_reduced_head_dims_ cfg = None ->
   attention_activation_function_ cfg <> None ->
   __init__ C cfg = Err (AssertionError msg_attention_activation)).
Proof.
  intros Hds Hat. unfold known_down_sample in Hds.
  apply String.eqb_neq in Hat.
  unfold __init__, validate. rewrite Hds, Hat. split.
  - intros Hr. destruct (use_reduced_head_dims_ cfg); [reflexivity | congruence].
  - intros -> Ha.
    destruct (attention_activation_function_ cfg); [reflexivity | congruence].
Qed.

(** X13. In the pre-activation design, with the earlier assertions
    passing, a [pos_skip] other than "all" and "not_last" (in particular
    "not_first") fails construction with the AssertionError of lines
    50-52. *)
Theorem preactivation_pos_skip_refused (cfg : config) :
  known_down_sample (down_sample cfg) = true ->
  use_reduced_head_dims_ cfg = None ->
  attention_activation_function_ cfg = None ->
  use_pre_activation_design cfg = true ->
  pos_skip cfg <> "all" ->
  pos_skip cfg <> "not_last" ->
  __init__ C cfg = Err (AssertionError msg_pos_skip).
Proof.
  intros Hds Hr Ha Hpre H1 H2. unfold known_down_sample in Hds.
  apply String.eqb_neq in H1, H2.
  unfold __init__, validate. now rewrite Hds, Hr, Ha, Hpre, H1, H2.
Qed.

(** X14. With variant "v1" and a valid [down_sample]: a non-zero
    [use_reduced_head_dims] with [heads = 0] fails construction with
    ZeroDivisionError; with [heads <> 0] and 2*gru_units not a multiple of
    [heads] it fails with the AssertionError of lines 46-47; but
    [use_reduced_head_dims = 0] skips the divisibility check altogether,
    so the assertions pass whenever the last one does. *)
Theorem reduced_head_dims_divisibility (cfg : config) (n : Z) :
  known_down_sample (down_sample cfg) = true ->
  attention_type cfg = "v1" ->
  use_reduced_head_dims_ cfg = Some n ->
  (n <> 0%Z -> heads_ cfg = 0%Z -> __init__ C cfg = Err ZeroDivisionError) /\
  (n <> 0%Z -> heads_ cfg <> 0%Z ->
   ((2 * gru_units cfg) mod heads_ cfg <> 0)%Z ->
   __init__ C cfg = Err (AssertionError msg_divisible)) /\
  (n = 0%Z ->
   (if use_pre_activation_design cfg
    then pos_skip cfg = "all" \/ pos_skip cfg = "not_last"
    else norm_before_act cfg <> Some false) ->
   validate cfg = Ok tt).
Proof.
  intros Hds Hat Hr. unfold known_down_sample in Hds.
  unfold __init__, validate. rewrite Hds, Hat, Hr.
  cbn [is_None orb String.eqb Ascii.eqb Bool.eqb andb assert rbind truthy_int].
  rewrite !orb_true_r. cbn [assert rbind].
  repeat split.
  - intros Hn Hh. apply Z.eqb_neq in Hn. rewrite Hn, Hh. reflexivity.
  - intros Hn Hh Hm. apply Z.eqb_neq in Hn, Hh, Hm.
    rewrite Hn, Hh. cbn [negb]. rewrite Hm. reflexivity.
  - intros -> Hlast. cbn [Z.eqb negb rbind].
    destruct (use_pre_activation_design cfg).
    + destruct Hlast as [-> | ->]; reflexivity.
    + destruct (norm_before_act cfg) as [[|] |]; [reflexivity | | reflexivity].
      congruence.
Qed.

(** X15. In the pre-activation design with the pre-convolution, a
    [norm_type] other than "BN" and "IN" leaves the local [starting_norm]
    unbound: when the assertions pass and the convolution and activation
    constructors do not raise, construction fails with UnboundLocalError. *)
Theorem unknown_norm_type_unbound_local (cfg : config) :
  validate cfg = Ok tt ->
  use_pre_activation_design cfg = true ->
  use_pre_conv cfg = true ->
  known_norm_type (norm_type cfg) = false ->
  construct C (Conv1d (input_channel cfg) (input_channel cfg)
                      (pre_conv_kernel cfg)) = Ok tt ->
  construct C (LeakyReLU (3 # 10)) = Ok tt ->
  __init__ C cfg = Err (UnboundLocalError "starting_norm").
Proof.
  intros Hv Hpre Hpc Hn Hconv Hact. unfold known_norm_type in Hn.
  apply orb_false_iff in Hn. destruct Hn as [HB HI].
  unfold __init__. rewrite Hv. cbn [rbind].
  unfold build_starting_conv. rewrite Hpre, Hpc, HB, HI. cbn [andb rbind].
  unfold new. rewrite Hconv, Hact.
  destruct (truthy_bool (norm_before_act cfg)); reflexivity.
Qed.

(** *** What a constructed model is made of *)

Lemma new_inv (l a : layer) : new C l = Ok a -> a = l.
Proof.
  unfold new. destruct (construct C l); cbn [rbind]; [| discriminate].
  now intros [= <-].
Qed.

Ltac invert_build :=
  repeat match goal with
         | H : rbind _ _ = Ok _ |- _ => step_bind H
         | H : new C _ = Ok _ |- _ => apply new_inv in H; subst
         | H : (if ?b then _ else _) = Ok _ |- _ => destruct b
         | H : Ok _ = Ok _ |- _ => injection H as H; subst
         | H : (_, _) = (_, _) |- _ => injection H as H; subst
         | H : Err _ = Ok _ |- _ => discriminate H
         end.

(** X16. In every model that [__init__] returns, the channel counts
    chain: blocks 2 to 4 each take the output channels of their
    predecessor, block 1 (when set) takes [input_channel], the
    second-stage block (when set) yields 12 channels, and 12 is the input
    size of the GRU whatever [vary_channels] is; the classifier reads
    2*gru_units features and yields [num_classes]. *)
Theorem constructed_channels_chain (cfg : config) (self : FinalModel) :
  __init__ C cfg = Ok self ->
  exists a2 a3 a4,
    block_of (_first_conv_block_2 self) = Some a2 /\
    block_of (_first_conv_block_3 self) = Some a3 /\
    block_of (_first_conv_block_4 self) = Some a4 /\
    in_channels a3 = out_channels a2 /\
    in_channels a4 = out_channels a3 /\
    (forall m1, _first_conv_block_1 self = Some m1 ->
       exists a1, block_of m1 = Some a1 /\
                  in_channels a1 = input_channel cfg /\
                  in_channels a2 = out_channels a1) /\
    (forall m5, _second_conv_block_1 self = Some m5 ->
       exists a5, block_of m5 = Some a5 /\
                  in_channels a5 = out_channels a4 /\
                  out_channels a5 = 12%Z) /\
    _biGRU self = Layer (GRU 12 (gru_units cfg) 1 true true) /\
    _fcn self = Layer (Linear (gru_units cfg * 2) (num_classes cfg)).
Proof.
  unfold __init__. intros H.
  step_bind H. step_bind H. step_bind H.
  destruct a1 as [[[[b1 b2] b3] b4] s1].
  unfold build_blocks in E1.
  unfold out_channel_blocks in *.
  destruct (vary_channels cfg);
    destruct (use_pre_activation_design cfg);
    invert_build; cbn;
    (do 3 eexists; repeat split; try reflexivity;
     intros m [= <-]; eexists; repeat split; reflexivity).
Qed.

(** *** Calls made by [forward] *)

Lemma calls_to_app (name : string) (l1 l2 : list (string * pyval T)) :
  calls_to name (l1 ++ l2) = (calls_to name l1 ++ calls_to name l2)%list.
Proof. apply filter_app. Qed.

Lemma silent_fret (name : string) (A : Type) (a : A) :
  silent (T:=T) name (fret a).
Proof. intros log. exists []. now rewrite app_nil_r. Qed.

Lemma silent_flift (name : string) (A : Type) (r : result A) :
  silent (T:=T) name (flift r).
Proof. intros log. exists []. now rewrite app_nil_r. Qed.

Lemma silent_call_attr (name attr : string) (m : option module)
  (v : pyval T) :
  (attr =? name) = false -> silent name (call_attr C attr m v).
Proof.
  intros Hn. destruct m as [m |]; [| apply silent_flift].
  intros log. exists [(attr, v)]. split; [reflexivity |].
  unfold calls_to. cbn. now rewrite Hn.
Qed.

Lemma silent_fbind (name : string) (A B : Type) (m : @FM T A)
  (f : A -> @FM T B) :
  silent name m -> (forall a, silent name (f a)) -> silent name (fbind m f).
Proof.
  intros Hm Hf log. unfold fbind.
  destruct (Hm log) as [e1 [H1 F1]].
  destruct (m log) as [[a | e] l']; cbn [snd] in H1; subst l'.
  - destruct (Hf a (log ++ e1)%list) as [e2 [H2 F2]].
    exists (e1 ++ e2)%list. rewrite H2, app_assoc. split; [reflexivity |].
    now rewrite calls_to_app, F1, F2.
  - now exists e1.
Qed.

Ltac solve_silent :=
  repeat first
    [ apply silent_fret
    | apply silent_flift
    | apply silent_call_attr; reflexivity
    | apply silent_fbind; [| intro]
    | match goal with
      | |- silent _ (if ?b then _ else _) => destruct b
      end ].

(** X17. Without the pre-activation design, [use_pre_conv] has no
    effect: [__init__] builds no [_starting_conv], and [forward] makes no
    call through it, whatever the input and the outcome. *)
Theorem pre_conv_ignored_without_preactivation (cfg : config)
  (self : FinalModel) (x : pyval T) :
  use_pre_activation_design cfg = false ->
  __init__ C cfg = Ok self ->
  _starting_conv self = None /\
  calls_to "_starting_conv" (snd (forward C self x [])) = [].
Proof.
  intros Hpre Hinit.
  destruct (init_inv C cfg self Hinit) as [_ [_ [_ Hpd]]].
  split.
  - unfold __init__ in Hinit. step_bind Hinit. step_bind Hinit.
    unfold build_starting_conv in E0. rewrite Hpre in E0. cbn [andb] in E0.
    injection E0 as <-.
    step_bind Hinit. destruct a0 as [[[[b1 b2] b3] b4] s1].
    destruct (out_channel_blocks cfg) as [[[[c1 c2] c3] c4] c5].
    repeat step_bind Hinit. now injection Hinit as <-.
  - assert (S : silent "_starting_conv" (forward C self x)).
    { unfold forward, conv_stage, head_stage. rewrite Hpd, Hpre.
      solve_silent. }
    destruct (S []) as [ext [-> Hext]]. exact Hext.
Qed.

(** *** The order of the calls *)

Lemma fbind_ok (A B : Type) (m : @FM T A) (f : A -> @FM T B)
  (log log' : call_log) (y : B) :
  fbind m f log = (Ok y, log') ->
  exists a l1, m log = (Ok a, l1) /\ f a l1 = (Ok y, log').
Proof.
  unfold fbind. destruct (m log) as [[a | e] l1]; [| discriminate].
  intros H. now exists a, l1.
Qed.

Lemma call_attr_ok (name : string) (m : option module) (v a : pyval T)
  (log l1 : call_log) :
  call_attr C name m v log = (Ok a, l1) ->
  map fst l1 = (map fst log ++ [name])%list.
Proof.
  destruct m as [m |]; cbn; [| discriminate].
  intros [= _ <-]. now rewrite map_app.
Qed.

Lemma flift_ok (A : Type) (r : result A) (a : A) (log l1 : call_log) :
  flift (T:=T) r log = (Ok a, l1) -> l1 = log.
Proof. now intros [= _ <-]. Qed.

Lemma fret_ok (A : Type) (a b : A) (log l1 : call_log) :
  fret (T:=T) a log = (Ok b, l1) -> l1 = log.
Proof. now intros [= _ <-]. Qed.

(** Follow a pass that returned, one call at a time. *)
Ltac follow H :=
  repeat match type of H with
         | fbind _ _ _ = (Ok _, _) =>
             let a := fresh "a" in
             let l := fresh "l" in
             let E := fresh "E" in
             apply fbind_ok in H; destruct H as (a & l & E & H);
             first [ apply call_attr_ok in E
                   | apply flift_ok in E; subst l ]
         end.

Lemma pre_conv_stage_names (self : FinalModel) (x a : pyval T)
  (log l1 : call_log) :
  pre_conv_stage C self x log = (Ok a, l1) ->
  map fst l1
  = (map fst log
     ++ (if _use_pre_conv self then ["_starting_conv"] else []))%list.
Proof.
  unfold pre_conv_stage. destruct (_use_pre_conv self); intros H.
  - now apply call_attr_ok in H.
  - apply fret_ok in H. subst. now rewrite app_nil_r.
Qed.

Lemma preact_last_block_names (self : FinalModel) (x a : pyval T)
  (log l1 : call_log) :
  preact_last_block C self x log = (Ok a, l1) ->
  map fst l1
  = (map fst log
     ++ (if (_pos_skip self =? "all") || (_pos_skip self =? "not_last")
         then ["_second_conv_block_1"] else []))%list.
Proof.
  unfold preact_last_block.
  destruct (_pos_skip self =? "all");
    [| destruct (_pos_skip self =? "not_last")]; cbn [orb]; intros H.
  - follow H. apply fret_ok in H. now subst.
  - apply fbind_ok in H. destruct H as (a0 & l & E & H).
    apply fret_ok in H. subst. follow E. now apply call_attr_ok in E.
  - apply fbind_ok in H. destruct H as (a0 & l & E & H).
    apply fret_ok in H, E. subst. now rewrite app_nil_r.
Qed.

Lemma conv_stage_names (self : FinalModel) (x a : pyval T)
  (log l1 : call_log) :
  conv_stage C self x log = (Ok a, l1) ->
  map fst l1
  = (map fst log
     ++ (if _use_pre_activation_design self then
           (if _use_pre_conv self then ["_starting_conv"] else [])
           ++ ["_first_conv_block_1"; "_first_conv_block_2";
               "_first_conv_block_3"; "_first_conv_block_4"]
           ++ (if (_pos_skip self =? "all")
                  || (_pos_skip self =? "not_last")
               then ["_second_conv_block_1"] else [])
         else ["_first_conv_block_1"; "_first_conv_block_2";
               "_first_conv_block_3"; "_first_conv_block_4";
               "_second_conv_block_1"]))%list.
Proof.
  unfold conv_stage. destruct (_use_pre_activation_design self); intros H.
  - apply fbind_ok in H. destruct H as (a0 & l0 & E0 & H).
    apply pre_conv_stage_names in E0.
    follow H. apply preact_last_block_names in H.
    rewrite H, E3, E2, E1, E, E0. now rewrite <- !app_assoc.
  - follow H. apply call_attr_ok in H.
    rewrite H, E2, E1, E0, E. now rewrite <- !app_assoc.
Qed.

Lemma head_stage_names (self : FinalModel) (x a : pyval T)
  (log l1 : call_log) :
  head_stage C self x log = (Ok a, l1) ->
  map fst l1
  = (map fst log
     ++ ["_biGRU"; "_biGru_activation_do";
         "_multi_head_contextual_attention"; "_batchNorm"; "_fcn"]
     ++ (if _apply_final_activation self
         then ["_final_activation"] else []))%list.
Proof.
  unfold head_stage. intros H. follow H.
  destruct (_apply_final_activation self).
  - apply call_attr_ok in H.
    rewrite H, E3, E2, E1, E0, E. now rewrite <- !app_assoc.
  - apply fret_ok in H. subst.
    rewrite E3, E2, E1, E0, E. now rewrite <- !app_assoc.
Qed.

(** X18. A pass through [forward] that returns has called every
    submodule of the pipeline exactly once, in the order of the source:
    the optional pre-convolution, the four first-stage blocks, the
    second-stage block, the GRU, its activation, the attention pooling,
    the normalization, the classifier and the optional final activation. *)
Theorem returning_forward_calls_pipeline (self : FinalModel)
  (x y : pyval T) :
  fst (forward C self x []) = Ok y ->
  map fst (snd (forward C self x [])) = pipeline self.
Proof.
  intros H.
  destruct (forward C self x []) as [r log'] eqn:E. cbn [fst snd] in *.
  subst r. unfold forward in E.
  apply fbind_ok in E. destruct E as (a & l & Ec & Eh).
  apply conv_stage_names in Ec. apply head_stage_names in Eh.
  rewrite Eh, Ec. unfold pipeline. cbn [map app]. reflexivity.
Qed.

Lemma traces_fret (A : Type) (a : A) : traces (T:=T) [] (fret a).
Proof.
  intros log. exists []. rewrite app_nil_r.
  split; [reflexivity |]. split; [now exists [] | reflexivity].
Qed.

Lemma traces_flift (A : Type) (r : result A) : traces (T:=T) [] (flift r).
Proof.
  intros log. exists []. rewrite app_nil_r.
  split; [reflexivity |]. split; [now exists [] | reflexivity].
Qed.

Lemma traces_call_attr (name : string) (m : option module) (v : pyval T) :
  traces [name] (call_attr C name m v).
Proof.
  intros log. destruct m as [m |]; cbn.
  - exists [(name, v)].
    split; [reflexivity |]. split; [now exists [] | reflexivity].
  - exists []. rewrite app_nil_r.
    split; [reflexivity |]. split; [now exists [name] | discriminate].
Qed.

Lemma traces_fbind (A B : Type) (e1 e2 : list string) (m : @FM T A)
  (f : A -> @FM T B) :
  traces e1 m -> (forall a, traces e2 (f a)) ->
  traces (e1 ++ e2) (fbind m f).
Proof.
  intros Hm Hf log. unfold fbind.
  destruct (Hm log) as [x1 [H1 [P1 O1]]].
  destruct (m log) as [[a | e] l']; cbn [fst snd] in *; subst l'.
  - specialize (O1 a eq_refl).
    destruct (Hf a (log ++ x1)%list) as [x2 [H2 [[r2 P2] O2]]].
    exists (x1 ++ x2)%list. rewrite H2, app_assoc, map_app, O1.
    split; [reflexivity |]. split.
    + exists r2. now rewrite P2, app_assoc.
    + intros b Hb. f_equal. now apply (O2 b).
  - exists x1. split; [reflexivity |]. split.
    + destruct P1 as [r1 ->]. exists (r1 ++ e2)%list. now rewrite app_assoc.
    + discriminate.
Qed.

Lemma traces_eq (A : Type) (e e' : list string) (m : @FM T A) :
  traces e m -> e = e' -> traces e' m.
Proof. now intros H <-. Qed.

Ltac solve_traces :=
  repeat first
    [ apply traces_fret
    | apply traces_flift
    | apply traces_call_attr
    | eapply traces_fbind; [| intro] ].

(** X19. Whatever the input and whether it returns or raises, the calls
    that [forward] has made form an initial segment of the pipeline: no
    submodule is called twice, out of order, or after a later one. *)
Theorem forward_calls_pipeline_prefix (self : FinalModel) (x : pyval T) :
  is_prefix (map fst (snd (forward C self x []))) (pipeline self).
Proof.
  assert (H : traces (pipeline self) (forward C self x)).
  { unfold forward, conv_stage, pre_conv_stage, preact_last_block,
      head_stage, pipeline.
    destruct (_use_pre_activation_design self);
      destruct (_use_pre_conv self);
      destruct (_pos_skip self =? "all");
      destruct (_pos_skip self =? "not_last");
      destruct (_apply_final_activation self);
      (eapply traces_eq; [solve_traces | reflexivity]). }
  destruct (H []) as [ext [-> [P _]]]. exact P.
Qed.

End Assembly.

Lemma v1_only_options_witness :
  __init__ shapes
    (mkConfig false true 12 9 (2 # 10) (2 # 10) (2 # 10) (2 # 10)
              3 3 24 48 2 2 "conv" true "not_last" "BN" "all" (Some true)
              true true 16 12 (2 # 10) 3 false (Some 4%Z) None "v2")
  = Err (AssertionError msg_reduced_head_dims) /\
  __init__ shapes
    (mkConfig false true 12 9 (2 # 10) (2 # 10) (2 # 10) (2 # 10)
              3 3 24 48 2 2 "conv" true "not_last" "BN" "all" (Some true)
              true true 16 12 (2 # 10) 3 false None (Some "entmax15") "v2")
  = Err (AssertionError msg_attention_activation).
Proof.
  split.
  - apply v1_only_options; [reflexivity | discriminate | discriminate].
  - apply v1_only_options;
      [reflexivity | discriminate | reflexivity | discriminate].
Defined.

Lemma preactivation_pos_skip_refused_witness :
  __init__ shapes (config_with "conv" "not_first" (Some true) true "v2")
  = Err (AssertionError msg_pos_skip).
Proof.
  apply preactivation_pos_skip_refused; try reflexivity; discriminate.
Defined.

Lemma reduced_head_dims_divisibility_witness :
  __init__ shapes
    (mkConfig false true 12 9 (2 # 10) (2 # 10) (2 # 10) (2 # 10)
              3 3 24 48 2 2 "conv" true "not_last" "BN" "all" (Some true)
              true true 16 12 (2 # 10) 0 false (Some 4%Z) None "v1")
  = Err ZeroDivisionError /\
  __init__ shapes
    (mkConfig false true 12 9 (2 # 10) (2 # 10) (2 # 10) (2 # 10)
              3 3 24 48 2 2 "conv" true "not_last" "BN" "all" (Some true)
              true true 16 12 (2 # 10) 5 false (Some 4%Z) None "v1")
  = Err (AssertionError msg_divisible) /\
  validate
    (mkConfig false true 12 9 (2 # 10) (2 # 10) (2 # 10) (2 # 10)
              3 3 24 48 2 2 "conv" true "not_last" "BN" "all" (Some true)
              true true 16 12 (2 # 10) 5 false (Some 0%Z) None "v1")
  = Ok tt.
Proof.
  split; [| split].
  - eapply reduced_head_dims_divisibility;
      [reflexivity | reflexivity | reflexivity | discriminate | reflexivity].
  - eapply reduced_head_dims_divisibility;
      [reflexivity | reflexivity | reflexivity | discriminate
      | discriminate | discriminate].
  - eapply (reduced_head_dims_divisibility shapes);
      [reflexivity | reflexivity | reflexivity | reflexivity
      | right; reflexivity].
Defined.

Lemma unknown_norm_type_unbound_local_witness :
  __init__ shapes
    (mkConfig false true 12 9 (2 # 10) (2 # 10) (2 # 10) (2 # 10)
              3 3 24 48 2 2 "conv" true "not_last" "LN" "all" (Some true)
              true true 16 12 (2 # 10) 3 false None None "v2")
  = Err (UnboundLocalError "starting_norm").
Proof. apply unknown_norm_type_unbound_local; reflexivity. Defined.

Lemma constructed_channels_chain_witness :
  exists self a2 a3 a4,
    __init__ shapes main_config = Ok self /\
    block_of (_first_conv_block_2 self) = Some a2 /\
    block_of (_first_conv_block_3 self) = Some a3 /\
    block_of (_first_conv_block_4 self) = Some a4 /\
    in_channels a3 = out_channels a2 /\
    in_channels a4 = out_channels a3 /\
    _biGRU self = Layer (GRU 12 32 1 true true) /\
    _fcn self = Layer (Linear (32 * 2) 9).
Proof.
  eexists.
  assert (H : __init__ shapes main_config = Ok _) by (vm_compute; reflexivity).
  destruct (constructed_channels_chain shapes main_config _ H)
    as (a2 & a3 & a4 & H2 & H3 & H4 & H23 & H34 & _ & _ & Hg & Hf).
  exists a2, a3, a4. repeat split; assumption.
Defined.

Lemma pre_conv_ignored_without_preactivation_witness :
  exists self,
    __init__ shapes (config_with "conv" "all" (Some true) false "v2")
    = Ok self /\
    _starting_conv self = None /\
    calls_to "_starting_conv" (snd (forward shapes self main_input [])) = [].
Proof.
  eexists. split; [vm_compute; reflexivity |].
  apply (pre_conv_ignored_without_preactivation shapes
           (config_with "conv" "all" (Some true) false "v2"));
    [reflexivity | vm_compute; reflexivity].
Defined.

Lemma returning_forward_calls_pipeline_witness :
  exists self,
    __init__ shapes main_config = Ok self /\
    fst (forward shapes self main_input []) = Ok (Tensor [2; 9]%Z) /\
    map fst (snd (forward shapes self main_input [])) = pipeline self.
Proof.
  eexists. split; [vm_compute; reflexivity |].
  split; [vm_compute; reflexivity |].
  apply (returning_forward_calls_pipeline shapes _ main_input (Tensor [2; 9]%Z)).
  vm_compute. reflexivity.
Defined.

End FinalExtras.
